(** * Fraud-scoring engine of [main.py]: shallow embedding and properties

    The embedding follows [main.py] function by function.

    - Python [float]s (the [amount] field, NumPy's [float64] results, the
      coordinates of [location_lookup]) are IEEE-754 binary64 numbers, modelled
      by Rocq's primitive [float]s, which are the same numbers with the same
      round-to-nearest operations.
    - Python [str]s are modelled by [string]: sequences of characters with
      code points below 256.
    - The two MongoDB collections are lists of documents in insertion order;
      the module-level dictionary [last_known_location] is a [gmap].
    - An endpoint call is a computation in a state-and-exception monad over
      the three stores. *)

From Stdlib Require Import ZArith List Ascii String.
From Stdlib Require Import Floats.PrimFloat Numbers.Cyclic.Int63.Uint63.
From Stdlib Require Import Floats.FloatOps Floats.FloatAxioms Floats.SpecFloat.
From Stdlib Require Import Sorting.Sorted.
From stdpp Require Import gmap strings list.
Import ListNotations.

Set Warnings "-inexact-float".
Local Open Scope string_scope.
Local Open Scope Z_scope.

(** ** Python and NumPy primitives *)

Module Py.

(** [l[start:]]: a negative [start] counts from the end and is clamped at
    the beginning of the list, a non-negative one is clamped at its end. *)
Definition slice_from {A : Type} (start : Z) (l : list A) : list A :=
  let n := Z.of_nat (length l) in
  let i := if start <? 0 then Z.max (n + start) 0 else Z.min start n in
  drop (Z.to_nat i) l.

(** [str.isspace] on one character, for code points below 256: TAB, LF, VT,
    FF, CR, the separators 0x1C-0x1F, SPACE, NEL (0x85) and NBSP (0xA0). *)
Definition isspace (c : ascii) : bool :=
  let n := Z.of_nat (nat_of_ascii c) in
  ((9 <=? n) && (n <=? 13)) || ((28 <=? n) && (n <=? 32))
  || (n =? 133) || (n =? 160).

(** [\d] of the [re] module on the same characters: the ten ASCII digits. *)
Definition isdigit (c : ascii) : bool :=
  let n := Z.of_nat (nat_of_ascii c) in (48 <=? n) && (n <=? 57).

Fixpoint lstrip (s : list ascii) : list ascii :=
  match s with
  | c :: s' => if isspace c then lstrip s' else s
  | [] => []
  end.

Definition rstrip (s : list ascii) : list ascii := rev (lstrip (rev s)).

(** [s.strip()] *)
Definition strip (s : string) : string :=
  string_of_list_ascii (rstrip (lstrip (list_ascii_of_string s))).

(** [s.split(",")[0]]: the text before the first comma, all of [s] when
    there is none. *)
Fixpoint split_comma_head (s : string) : string :=
  match s with
  | EmptyString => EmptyString
  | String c s' => if Ascii.eqb c "," then EmptyString else String c (split_comma_head s')
  end.

(** [int(s)] for a text of ASCII digits with optional blanks in front. *)
Definition digit_value (c : ascii) : Z := Z.of_nat (nat_of_ascii c) - 48.

Definition int (s : list ascii) : Z :=
  fold_left (fun acc c => 10 * acc + digit_value c) (lstrip s) 0.

End Py.

Module Np.

(** An element count as a [float64] (exact below 2^53). *)
Definition of_count (n : nat) : float := PrimFloat.of_uint63 (Uint63.of_Z (Z.of_nat n)).

(** NumPy's [pairwise_sum] of a contiguous block of [float64]s.

    The unrolled part, for blocks of 8 to 128 elements: eight accumulators
    [r0..r7] take the elements in turn, eight at a time, as long as eight
    are left; then the accumulators are added up as a balanced tree and the
    elements that are left, fewer than eight, are added one by one. *)
Fixpoint unrolled (r0 r1 r2 r3 r4 r5 r6 r7 : float) (a : list float) : float :=
  match a with
  | a0 :: a1 :: a2 :: a3 :: a4 :: a5 :: a6 :: a7 :: a' =>
      unrolled (r0 + a0) (r1 + a1) (r2 + a2) (r3 + a3)
               (r4 + a4) (r5 + a5) (r6 + a6) (r7 + a7) a'
  | _ =>
      fold_left PrimFloat.add a
        (((r0 + r1) + (r2 + r3)) + ((r4 + r5) + (r6 + r7)))
  end%float.

(** Fewer than 8 elements are added one by one, starting from -0.0. *)
Definition one_by_one (a : list float) : float := fold_left PrimFloat.add a neg_zero.

Definition block (a : list float) : float :=
  match a with
  | a0 :: a1 :: a2 :: a3 :: a4 :: a5 :: a6 :: a7 :: a' => unrolled a0 a1 a2 a3 a4 a5 a6 a7 a'
  | _ => one_by_one a
  end.

(** Blocks of more than 128 elements are cut in two, the first part a
    multiple of 8 long, and the sums of the two parts are added.  The
    recursion is on [fuel]; the length of the block is enough of it
    ([pairwise_sum_fuel] below), so the branch without fuel is never taken
    on a block of more than 128 elements. *)
Fixpoint pairwise_sum (fuel : nat) (a : list float) : float :=
  let n := length a in
  if (n <? 8)%nat then one_by_one a
  else if (n <=? 128)%nat then block a
  else
    match fuel with
    | O => block a
    | S fuel' =>
        let n2 := (n / 2 - (n / 2) mod 8)%nat in
        (pairwise_sum fuel' (take n2 a) + pairwise_sum fuel' (drop n2 a))%float
    end.

(** [np.add.reduce] on a one-dimensional array: the pairwise sum of the
    elements, added to the identity 0. *)
Definition sum (a : list float) : float := (0 + pairwise_sum (length a) a)%float.

(** [np.mean(a)] *)
Definition mean (a : list float) : float := (sum a / of_count (length a))%float.

(** [np.var(a)] with [ddof = 0]: the mean of the squared deviations from
    the mean. *)
Definition var (a : list float) : float :=
  let arrmean := mean a in
  let x := map (fun v => (v - arrmean)%float) a in
  let x := map (fun d => (d * d)%float) x in
  (sum x / of_count (length a))%float.

(** [np.std(a)]: the population standard deviation. *)
Definition std (a : list float) : float := PrimFloat.sqrt (var a).

End Np.

(** ** Data model *)

(** A naive [datetime] (no time zone, microseconds always 0 here). *)
Record datetime := mk_datetime {
  year : Z; month : Z; day : Z; hour : Z; minute : Z; second : Z
}.

(** The request body (the pydantic model [Transaction]). *)
Record Transaction := mk_Transaction {
  transaction_id : string;
  timestamp : string;
  amount : float;
  location : string;
  card_type : string;
  currency : string;
  recipient_account_number : string;
  sender_account_number : string
}.

(** What [get_client_ip] reads of the request: the [x-forwarded-for] header,
    when present, and the peer address [request.client.host]. *)
Record Request := mk_Request {
  x_forwarded_for : option string;
  client_host : string
}.

(** A document of [collection], as [check_fraud] inserts it. *)
Record StoredTransaction := mk_StoredTransaction {
  doc_transaction_id : string;
  doc_timestamp : datetime;
  doc_amount : float;
  doc_location : string;
  doc_card_type : string;
  doc_currency : string;
  doc_recipient_account : string;
  doc_sender_account : string;
  doc_client_ip : string;
  doc_is_fraud : bool;
  doc_fraud_reason : list string
}.

(** A document of [blacklist_collection]. *)
Record BlacklistEntry := mk_BlacklistEntry {
  bl_type : string;
  bl_value : string;
  bl_reason : list string;
  bl_timestamp : datetime
}.

(** The mutable state the endpoint works on. *)
Record State := mk_State {
  collection : list StoredTransaction;
  blacklist_collection : list BlacklistEntry;
  last_known_location : gmap string string
}.

(** ** [datetime.strptime(s, "%Y-%m-%d %H:%M:%S")] *)

(** The regular expression that [_strptime] compiles the format to, run with
    the backtracking order of [re.match]: every way to match a prefix of the
    input, the preferred one first. *)
Module Re.

Inductive regex :=
| Chr (c : ascii)              (* a literal character *)
| Cls (p : ascii -> bool)      (* a character class *)
| Cat (r1 r2 : regex)          (* r1 r2 *)
| Alt (r1 r2 : regex)          (* r1|r2 *)
| Many1 (p : ascii -> bool).   (* [class]+, greedy *)

Definition one (p : ascii -> bool) (s : list ascii) : list (list ascii * list ascii) :=
  match s with
  | c :: s' => if p c then [([c], s')] else []
  | [] => []
  end.

Fixpoint many1 (p : ascii -> bool) (s : list ascii) : list (list ascii * list ascii) :=
  match s with
  | c :: s' =>
      if p c then (map (fun mr => (c :: fst mr, snd mr)) (many1 p s') ++ [([c], s')])%list else []
  | [] => []
  end.

(** [run r s]: the pairs (matched text, remaining input). *)
Fixpoint run (r : regex) (s : list ascii) : list (list ascii * list ascii) :=
  match r with
  | Chr c => one (Ascii.eqb c) s
  | Cls p => one p s
  | Cat r1 r2 =>
      '(m1, s1) ← run r1 s; '(m2, s2) ← run r2 s1; [((m1 ++ m2)%list, s2)]
  | Alt r1 r2 => (run r1 s ++ run r2 s)%list
  | Many1 p => many1 p s
  end.

(** [[lo-hi]] *)
Definition range (lo hi : ascii) : regex :=
  Cls (fun c => (nat_of_ascii lo <=? nat_of_ascii c)%nat && (nat_of_ascii c <=? nat_of_ascii hi)%nat).

Definition d : regex := Cls Py.isdigit.

Declare Scope regex_scope.
Delimit Scope regex_scope with re.
Infix "·" := Cat (at level 40, left associativity) : regex_scope.
Infix "|||" := Alt (at level 50, left associativity) : regex_scope.

End Re.

Module Strptime.
Import Re.
Local Open Scope regex_scope.

(** The directives' patterns, from [TimeRE.__init__]. *)
Definition re_Y : regex := d · d · d · d.
Definition re_m : regex := Chr "1" · range "0" "2" ||| Chr "0" · range "1" "9" ||| range "1" "9".
Definition re_d : regex :=
  Chr "3" · range "0" "1" ||| range "1" "2" · d ||| Chr "0" · range "1" "9"
  ||| range "1" "9" ||| Chr " " · range "1" "9".
Definition re_H : regex := Chr "2" · range "0" "3" ||| range "0" "1" · d ||| d.
Definition re_M : regex := range "0" "5" · d ||| d.
Definition re_S : regex := Chr "6" · range "0" "1" ||| range "0" "5" · d ||| d.

(** The texts of the groups Y, m, d, H, M, S. *)
Record groups := mk_groups {
  g_Y : list ascii; g_m : list ascii; g_d : list ascii;
  g_H : list ascii; g_M : list ascii; g_S : list ascii
}.

(** [format_regex.match(data_string)]: the first match of
    [(?P<Y>..)-(?P<m>..)-(?P<d>..)\s+(?P<H>..):(?P<M>..):(?P<S>..)]
    at the start of the input, with the input left after it. *)
Definition format_regex_match (data : list ascii) : option (groups * list ascii) :=
  head (
    '(tY, s) ← run re_Y data;
    '(_, s) ← run (Chr "-") s;
    '(tm, s) ← run re_m s;
    '(_, s) ← run (Chr "-") s;
    '(td, s) ← run re_d s;
    '(_, s) ← run (Many1 Py.isspace) s;
    '(tH, s) ← run re_H s;
    '(_, s) ← run (Chr ":") s;
    '(tM, s) ← run re_M s;
    '(_, s) ← run (Chr ":") s;
    '(tS, s) ← run re_S s;
    [(mk_groups tY tm td tH tM tS, s)]).

(** [calendar]: leap years and month lengths. *)
Definition is_leap (y : Z) : bool :=
  (y mod 4 =? 0) && (negb (y mod 100 =? 0) || (y mod 400 =? 0)).

Definition days_in_month (y m : Z) : Z :=
  if m =? 2 then (if is_leap y then 29 else 28)
  else if (m =? 4) || (m =? 6) || (m =? 9) || (m =? 11) then 30 else 31.

(** The range checks of the [date] and [datetime] constructors. *)
Definition check_date_fields (y m d : Z) : bool :=
  (1 <=? y) && (y <=? 9999) && (1 <=? m) && (m <=? 12)
  && (1 <=? d) && (d <=? days_in_month y m).

Definition check_time_fields (H M S : Z) : bool :=
  (0 <=? H) && (H <=? 23) && (0 <=? M) && (M <=? 59) && (0 <=? S) && (S <=? 59).

(** [None] stands for the [ValueError] that [strptime] raises: no match,
    unconverted data after the match, or field values that are no date
    or time. *)
Definition strptime (data_string : string) : option datetime :=
  match format_regex_match (list_ascii_of_string data_string) with
  | None => None
  | Some (found, rest) =>
      match rest with
      | _ :: _ => None
      | [] =>
          let year := Py.int (g_Y found) in
          let month := Py.int (g_m found) in
          let day := Py.int (g_d found) in
          let hour := Py.int (g_H found) in
          let minute := Py.int (g_M found) in
          let second := Py.int (g_S found) in
          if check_date_fields year month day && check_time_fields hour minute second
          then Some (mk_datetime year month day hour minute second)
          else None
      end
  end.

End Strptime.

(** ** Detectors *)

(** Lines 67-69 of [detect_behavioral_anomaly]: the z-score of the current
    amount against the window. *)
Definition z_score (amounts : list float) (current_amount : float) : float :=
  let mean := Np.mean amounts in
  let std := Np.std amounts in
  if negb (std =? 0)%float
  then PrimFloat.abs ((current_amount - mean) / std)%float
  else 0%float.

(** Line 64: [[txn["amount"] for txn in past_txns][-window_size:]]. *)
Definition amount_window (past_txns : list StoredTransaction) (window_size : Z) : list float :=
  Py.slice_from (- window_size) (map doc_amount past_txns).

Definition detect_behavioral_anomaly (past_txns : list StoredTransaction)
    (current_amount : float) (window_size : Z) (z_thresh : float) : bool :=
  let amounts := amount_window past_txns window_size in
  if (length amounts <? 2)%nat then false
  else (z_thresh <? z_score amounts current_amount)%float.

Definition coords : Type := float * float.

Definition location_lookup : gmap string coords :=
  list_to_map [
    ("Chennai", (13.0827, 80.2707)%float);
    ("Mumbai", (19.0760, 72.8777)%float);
    ("Delhi", (28.6139, 77.2090)%float);
    ("Bangalore", (12.9716, 77.5946)%float)
  ].

Definition BLACKLISTED_IPS : gset string :=
  {[ "203.0.113.5"; "198.51.100.10"; "45.33.32.156" ]}.

Definition startup_blacklisted_accounts : list string := ["9876543210"; "1111222233"].

(** ** The state-and-exception monad of an endpoint call *)

Inductive exn := ValueError.

Inductive outcome (A : Type) :=
| Returned (a : A)
| Raised (e : exn).
Arguments Returned {A} a.
Arguments Raised {A} e.

Definition M (A : Type) : Type := State -> outcome A * State.

#[global] Instance M_ret : MRet M := fun A a st => (Returned a, st).

#[global] Instance M_bind : MBind M := fun A B f m st =>
  match m st with
  | (Returned a, st') => f a st'
  | (Raised e, st') => (Raised e, st')
  end.

Definition raise {A : Type} (e : exn) : M A := fun st => (Raised e, st).
Definition gets {A : Type} (f : State -> A) : M A := fun st => (Returned (f st), st).
Definition modify (f : State -> State) : M unit := fun st => (Returned tt, f st).

(** [for x in l: body(x)] *)
Fixpoint for_each {A : Type} (l : list A) (body : A -> M unit) : M unit :=
  match l with
  | [] => mret tt
  | x :: l' => body x ;; for_each l' body
  end.

(** ** The stores *)

Definition is_account_entry (value : string) (e : BlacklistEntry) : bool :=
  String.eqb (bl_type e) "account" && String.eqb (bl_value e) value.

(** [blacklist_collection.find_one({"type": "account", "value": value})] *)
Definition find_one_account (value : string) : M (option BlacklistEntry) :=
  gets (fun st => List.find (is_account_entry value) (blacklist_collection st)).

(** [blacklist_collection.insert_one(entry)] *)
Definition blacklist_insert_one (entry : BlacklistEntry) : M unit :=
  modify (fun st =>
    mk_State (collection st) (blacklist_collection st ++ [entry])%list (last_known_location st)).

(** [collection.insert_one(doc)] *)
Definition collection_insert_one (doc : StoredTransaction) : M unit :=
  modify (fun st =>
    mk_State (collection st ++ [doc])%list (blacklist_collection st) (last_known_location st)).

(** [last_known_location[card_type] = location] *)
Definition last_known_location_set (card_type location : string) : M unit :=
  modify (fun st =>
    mk_State (collection st) (blacklist_collection st)
             (<[card_type := location]> (last_known_location st))).

(** The order of [datetime] values. *)
Definition datetime_key (t : datetime) : list Z :=
  [year t; month t; day t; hour t; minute t; second t].

Fixpoint key_leb (k1 k2 : list Z) : bool :=
  match k1, k2 with
  | a :: k1', b :: k2' => (a <? b) || ((a =? b) && key_leb k1' k2')
  | _, _ => true
  end.

Definition datetime_leb (t1 t2 : datetime) : bool :=
  key_leb (datetime_key t1) (datetime_key t2).

(** [.sort("timestamp", 1)]: ascending by timestamp; documents with equal
    timestamps stay in insertion order. *)
Fixpoint insert_by_timestamp (doc : StoredTransaction) (sorted : list StoredTransaction)
    : list StoredTransaction :=
  match sorted with
  | [] => [doc]
  | x :: rest =>
      if datetime_leb (doc_timestamp x) (doc_timestamp doc)
      then x :: insert_by_timestamp doc rest
      else doc :: sorted
  end.

Definition sort_by_timestamp (docs : list StoredTransaction) : list StoredTransaction :=
  fold_left (fun sorted doc => insert_by_timestamp doc sorted) docs [].

(** [list(collection.find({"card_type": card_type}).sort("timestamp", 1))] *)
Definition find_by_card_type (card_type : string) : M (list StoredTransaction) :=
  gets (fun st =>
    sort_by_timestamp
      (List.filter (fun doc => String.eqb (doc_card_type doc) card_type) (collection st))).

(** The block [if not blacklist_collection.find_one(...):
    blacklist_collection.insert_one(...)] of lines 44-50 and 158-164. *)
Definition add_if_absent (value : string) (reason : list string) (timestamp : datetime)
    : M unit :=
  found ← find_one_account value;
  if negb (bool_decide (is_Some found))
  then blacklist_insert_one (mk_BlacklistEntry "account" value reason timestamp)
  else mret tt.

(** The module-level seeding loop of lines 42-50; [datetime_now acc] is the
    clock reading when the entry of [acc] is built. *)
Definition startup (datetime_now : string -> datetime) : M unit :=
  for_each startup_blacklisted_accounts (fun acc =>
    add_if_absent acc ["Predefined blacklist"] (datetime_now acc)).

(** ** The engine *)

(** The body of the answer [{"fraud": ..., "reasons": ...}]. *)
Record Response := mk_Response {
  fraud : bool;
  reasons : list string
}.

(** [if cond: reasons.append(reason); is_fraud = True], on the pair of the
    local variables [reasons] and [is_fraud]. *)
Definition flag_if (cond : bool) (reason : string) (locals : list string * bool)
    : list string * bool :=
  if cond then ((fst locals ++ [reason])%list, true) else locals.

Definition get_client_ip (request : Request) : string :=
  match x_forwarded_for request with
  | Some forwarded =>
      if negb (String.eqb forwarded "")
      then Py.strip (Py.split_comma_head forwarded)
      else client_host request
  | None => client_host request
  end.

Section Engine.

(** [geodesic(a, b).km] of geopy: the distance in kilometres between two
    (latitude, longitude) pairs on the WGS-84 ellipsoid.  The library is
    not part of the program; the engine is parametric in it. *)
Variable geodesic_km : coords -> coords -> float.

(** [lkl] is the module-level dictionary [last_known_location], which the
    function reads. *)
Definition detect_geo_drift (lkl : gmap string string)
    (card_type current_location : string) (max_km : float) : bool :=
  match location_lookup !! current_location with
  | None => false
  | Some current_coords =>
      match lkl !! card_type with
      | None => false
      | Some last_location =>
          if String.eqb last_location "" then false
          else
            match location_lookup !! last_location with
            | None => false
            | Some last_coords =>
                (max_km <? geodesic_km last_coords current_coords)%float
            end
      end
  end.

Definition check_fraud (txn : Transaction) (request : Request) : M Response :=
  now ← match Strptime.strptime (timestamp txn) with
        | Some t => mret t
        | None => raise ValueError
        end;
  let locals : list string * bool := ([], false) in
  let client_ip := get_client_ip request in
  let locals :=
    flag_if (bool_decide (client_ip ∈ BLACKLISTED_IPS))
            ("Blacklisted IP Address: " +:+ client_ip) locals in
  found ← find_one_account (recipient_account_number txn);
  let locals :=
    flag_if (bool_decide (is_Some found))
            ("Blacklisted Recipient Account: " +:+ recipient_account_number txn) locals in
  found ← find_one_account (sender_account_number txn);
  let locals :=
    flag_if (bool_decide (is_Some found))
            ("Blacklisted Sender Account: " +:+ sender_account_number txn) locals in
  let locals :=
    flag_if ((0 <=? hour now) && (hour now <? 4))
            "Transaction During Odd Hours (12 AM - 4 AM)" locals in
  past_txns ← find_by_card_type (card_type txn);
  let locals :=
    flag_if (detect_behavioral_anomaly past_txns (amount txn) 5 2.5%float)
            "Abnormal Amount (Behavioral)" locals in
  lkl ← gets last_known_location;
  let locals :=
    flag_if (detect_geo_drift lkl (card_type txn) (location txn) 500%float)
            "Geo Drift Detected" locals in
  let reasons := fst locals in
  let is_fraud := snd locals in
  (if negb is_fraud
   then last_known_location_set (card_type txn) (location txn)
   else mret tt);;
  collection_insert_one
    {| doc_transaction_id := transaction_id txn;
       doc_timestamp := now;
       doc_amount := amount txn;
       doc_location := location txn;
       doc_card_type := card_type txn;
       doc_currency := currency txn;
       doc_recipient_account := recipient_account_number txn;
       doc_sender_account := sender_account_number txn;
       doc_client_ip := client_ip;
       doc_is_fraud := is_fraud;
       doc_fraud_reason := reasons |};;
  (if is_fraud
   then for_each [recipient_account_number txn; sender_account_number txn]
          (fun account => add_if_absent account reasons now)
   else mret tt);;
  mret (mk_Response is_fraud reasons).

End Engine.

(** ** Running a computation *)

Definition result {A : Type} (m : M A) (st : State) : outcome A := fst (m st).
Definition exec {A : Type} (m : M A) (st : State) : State := snd (m st).

(** ** Vocabulary of the properties *)

(** An account has an entry in the blacklist store of [st]. *)
Definition is_blacklisted (value : string) (st : State) : bool :=
  bool_decide (is_Some (List.find (is_account_entry value) (blacklist_collection st))).

(** The entries of the store for one account. *)
Definition entries_of (value : string) (store : list BlacklistEntry) : list BlacklistEntry :=
  List.filter (is_account_entry value) store.

(** The entries of type "account". *)
Definition is_account (e : BlacklistEntry) : bool := String.eqb (bl_type e) "account".

(** At most one entry per account value. *)
Definition unique_accounts (store : list BlacklistEntry) : Prop :=
  List.NoDup (map bl_value (List.filter is_account store)).

(** The history of a card as [check_fraud] queries it. *)
Definition card_history (card : string) (st : State) : list StoredTransaction :=
  sort_by_timestamp
    (List.filter (fun doc => String.eqb (doc_card_type doc) card) (collection st)).

Definition odd_hour (now : datetime) : bool := (0 <=? hour now) && (hour now <? 4).

(** A process start: the stores persist, the dictionary is empty again. *)
Definition restart (st : State) : State :=
  mk_State (collection st) (blacklist_collection st) ∅.

(** The timestamp format in the spec's words, to compare [strptime] with:
    a 4-digit year, 2-digit month and day, 2-digit hour, minute and second,
    laid out as YYYY-MM-DD HH:MM:SS. *)
Definition fixed_format (s : string) : bool :=
  match list_ascii_of_string s with
  | [y1; y2; y3; y4; s1; m1; m2; s2; d1; d2; s3; H1; H2; s4; M1; M2; s5; S1; S2] =>
      forallb Py.isdigit [y1; y2; y3; y4; m1; m2; d1; d2; H1; H2; M1; M2; S1; S2]
      && Ascii.eqb s1 "-" && Ascii.eqb s2 "-" && Ascii.eqb s3 " "
      && Ascii.eqb s4 ":" && Ascii.eqb s5 ":"
  | _ => false
  end.

Section Observations.

Variable geodesic_km : coords -> coords -> float.

(** The six checks of [check_fraud] in the order of the code, each with
    the reason it appends: whether it fires for the transaction, given the
    parsed timestamp and the state before the call. *)
Definition checks (txn : Transaction) (request : Request) (now : datetime) (st : State)
    : list (bool * string) :=
  let client_ip := get_client_ip request in
  [ (bool_decide (client_ip ∈ BLACKLISTED_IPS),
     "Blacklisted IP Address: " +:+ client_ip);
    (is_blacklisted (recipient_account_number txn) st,
     "Blacklisted Recipient Account: " +:+ recipient_account_number txn);
    (is_blacklisted (sender_account_number txn) st,
     "Blacklisted Sender Account: " +:+ sender_account_number txn);
    (odd_hour now,
     "Transaction During Odd Hours (12 AM - 4 AM)");
    (detect_behavioral_anomaly (card_history (card_type txn) st) (amount txn) 5 2.5%float,
     "Abnormal Amount (Behavioral)");
    (detect_geo_drift geodesic_km (last_known_location st) (card_type txn) (location txn)
       500%float,
     "Geo Drift Detected") ].

(** The document that [check_fraud] stores for a verdict. *)
Definition stored_doc (txn : Transaction) (request : Request) (now : datetime)
    (is_fraud : bool) (reasons : list string) : StoredTransaction :=
  {| doc_transaction_id := transaction_id txn;
     doc_timestamp := now;
     doc_amount := amount txn;
     doc_location := location txn;
     doc_card_type := card_type txn;
     doc_currency := currency txn;
     doc_recipient_account := recipient_account_number txn;
     doc_sender_account := sender_account_number txn;
     doc_client_ip := get_client_ip request;
     doc_is_fraud := is_fraud;
     doc_fraud_reason := reasons |}.

(** The states of a deployment: a first start on empty stores, then
    requests and restarts in any order. *)
Inductive reachable : State -> Prop :=
| reach_first_start (datetime_now : string -> datetime) :
    reachable (exec (startup datetime_now) (mk_State [] [] ∅))
| reach_restart (st : State) (datetime_now : string -> datetime) :
    reachable st -> reachable (exec (startup datetime_now) (restart st))
| reach_request (st : State) (txn : Transaction) (request : Request) :
    reachable st -> reachable (exec (check_fraud geodesic_km txn request) st).

End Observations.

(** ** Vocabulary of the further properties *)

(** The order of the history query. *)
Definition by_timestamp (a b : StoredTransaction) : Prop :=
  datetime_leb (doc_timestamp a) (doc_timestamp b) = true.

(** A stored transaction: flagged exactly when it has reasons, and with a
    timestamp that is a time of day. *)
Definition doc_ok (doc : StoredTransaction) : Prop :=
  (doc_is_fraud doc = true <-> doc_fraud_reason doc <> [])
  /\ (length (doc_fraud_reason doc) <= 6)%nat
  /\ 1 <= year (doc_timestamp doc) <= 9999
  /\ 1 <= month (doc_timestamp doc) <= 12
  /\ 1 <= day (doc_timestamp doc) <= 31
  /\ 0 <= hour (doc_timestamp doc) <= 23
  /\ 0 <= minute (doc_timestamp doc) <= 59
  /\ 0 <= second (doc_timestamp doc) <= 59.

(** A blacklist entry: of type "account", with a reason, and either
    predefined or backed by a stored fraudulent transaction that names the
    account and has the entry's reasons and timestamp. *)
Definition entry_ok (history : list StoredTransaction) (e : BlacklistEntry) : Prop :=
  bl_type e = "account"
  /\ bl_reason e <> []
  /\ ((In (bl_value e) startup_blacklisted_accounts
       /\ bl_reason e = ["Predefined blacklist"])
      \/ exists doc,
           In doc history
           /\ doc_is_fraud doc = true
           /\ doc_fraud_reason doc = bl_reason e
           /\ doc_timestamp doc = bl_timestamp e
           /\ (bl_value e = doc_recipient_account doc
               \/ bl_value e = doc_sender_account doc)).

(** A last known location: the location of a stored transaction of the
    card that was not flagged. *)
Definition baseline_ok (history : list StoredTransaction) (card location : string) : Prop :=
  exists doc,
    In doc history
    /\ doc_card_type doc = card
    /\ doc_location doc = location
    /\ doc_is_fraud doc = false.

Section Runs.

Variable geodesic_km : coords -> coords -> float.

(** The state after a series of calls. *)
Definition after_calls (calls : list (Transaction * Request)) (st : State) : State :=
  fold_left (fun st call => exec (check_fraud geodesic_km (fst call) (snd call)) st) calls st.

End Runs.

(** ** Concrete data for the examples *)

Module Samples.

Definition noon : datetime := mk_datetime 2025 8 7 12 0 0.

(** A stored, accepted transaction of card "visa" with the given amount. *)
Definition past (a : float) : StoredTransaction :=
  {| doc_transaction_id := "t";
     doc_timestamp := noon;
     doc_amount := a;
     doc_location := "Chennai";
     doc_card_type := "visa";
     doc_currency := "INR";
     doc_recipient_account := "5550001111";
     doc_sender_account := "5550002222";
     doc_client_ip := "192.0.2.1";
     doc_is_fraud := false;
     doc_fraud_reason := [] |}.

Definition history (amounts : list float) : list StoredTransaction := map past amounts.

(** A stand-in for geopy in the examples: a planar estimate in kilometres
    (111.2 km per degree, longitudes scaled by 0.94 for Indian latitudes). *)
Definition planar_km (a b : coords) : float :=
  let dlat := (fst a - fst b)%float in
  let dlon := (0.94 * (snd a - snd b))%float in
  (111.2 * PrimFloat.sqrt (dlat * dlat + dlon * dlon))%float.

Definition empty_state : State := mk_State [] [] ∅.

Definition txn_at (ts : string) : Transaction :=
  {| transaction_id := "tx-1";
     timestamp := ts;
     amount := 250%float;
     location := "Chennai";
     card_type := "visa";
     currency := "INR";
     recipient_account_number := "5550001111";
     sender_account_number := "5550002222" |}.

Definition direct : Request := mk_Request None "192.0.2.1".

(** A request relayed by a proxy for a blacklisted address. *)
Definition forwarded : Request :=
  mk_Request (Some " 203.0.113.5 , 10.0.0.1") "10.0.0.7".

(** The stores after a first start at noon. *)
Definition seeded : State := exec (startup (fun _ => noon)) empty_state.

(** A transfer at 02:30 to a predefined blacklisted account. *)
Definition night_txn : Transaction :=
  {| transaction_id := "tx-2";
     timestamp := "2025-08-07 02:30:00";
     amount := 250%float;
     location := "Delhi";
     card_type := "visa";
     currency := "INR";
     recipient_account_number := "9876543210";
     sender_account_number := "5550002222" |}.

(** An unremarkable transfer at noon from a place that is not in
    [location_lookup], and one from Delhi an hour later. *)
Definition atlantis_txn : Transaction :=
  {| transaction_id := "tx-4";
     timestamp := "2025-08-07 12:00:00";
     amount := 250%float;
     location := "Atlantis";
     card_type := "visa";
     currency := "INR";
     recipient_account_number := "5550001111";
     sender_account_number := "5550002222" |}.

Definition delhi_txn : Transaction :=
  {| transaction_id := "tx-5";
     timestamp := "2025-08-07 13:00:00";
     amount := 250%float;
     location := "Delhi";
     card_type := "visa";
     currency := "INR";
     recipient_account_number := "5550001111";
     sender_account_number := "5550002222" |}.

(** Empty stores, with Delhi as the last known location of card "visa". *)
Definition based_in_delhi : State := mk_State [] [] {[ "visa" := "Delhi" ]}.

End Samples.

(** * Properties *)

(** ** Python slices *)

Lemma slice_from_length {A : Type} (start : Z) (l : list A) :
  (length (Py.slice_from start l) <= length l)%nat.
Proof.
  unfold Py.slice_from. rewrite length_drop. lia.
Qed.

Lemma slice_from_last {A : Type} (w : Z) (l : list A) :
  0 < w -> (length (Py.slice_from (- w) l) <= Z.to_nat w)%nat.
Proof.
  intros Hw. unfold Py.slice_from. rewrite length_drop.
  destruct (Z.ltb_spec (- w) 0); lia.
Qed.

(** ** NumPy sums *)

(** The fuel of [Np.sum] is enough: more fuel gives the same sum. *)
Lemma pairwise_sum_fuel (fuel1 : nat) :
  forall (fuel2 : nat) (a : list float),
    (length a <= fuel1)%nat -> (length a <= fuel2)%nat ->
    Np.pairwise_sum fuel1 a = Np.pairwise_sum fuel2 a.
Proof.
  induction fuel1 as [| fuel1 IH]; intros fuel2 a H1 H2.
  - destruct a; [| cbn in H1; lia]. destruct fuel2; reflexivity.
  - destruct fuel2 as [| fuel2].
    + destruct a; [reflexivity | cbn in H2; lia].
    + cbn [Np.pairwise_sum].
      destruct (Nat.ltb_spec (length a) 8) as [_ | H8]; [reflexivity |].
      destruct (Nat.leb_spec (length a) 128) as [_ | H128]; [reflexivity |].
      set (n2 := (length a / 2 - (length a / 2) mod 8)%nat).
      assert (Hn2 : (0 < n2 < length a)%nat).
      { subst n2.
        pose proof (Nat.Div0.mod_le (length a / 2) 8).
        pose proof (Nat.mod_upper_bound (length a / 2) 8 ltac:(lia)).
        pose proof (Nat.Div0.mul_div_le (length a) 2).
        assert (64 <= length a / 2)%nat by (apply Nat.div_le_lower_bound; lia).
        lia. }
      rewrite (IH fuel2 (take n2 a)), (IH fuel2 (drop n2 a));
        rewrite ?length_take, ?length_drop; try lia.
      reflexivity.
Qed.

(** Below 8 elements the sum is the running sum from left to right; from 8
    elements on the eight accumulators change the rounding: ten tenths add
    up to 1 exactly, where the running sum gives 0.9999999999999999. *)
Example sum_of_ten_tenths :
  Np.sum (repeat 0.1%float 10) = 1%float
  /\ fold_left PrimFloat.add (repeat 0.1%float 10) 0%float = 0.99999999999999989%float
  /\ Np.sum (repeat 0.1%float 7) = fold_left PrimFloat.add (repeat 0.1%float 7) 0%float.
Proof. vm_compute. repeat split. Qed.

Example mean_and_std_of_eight_tenths :
  Np.mean (repeat 0.1%float 8) = 0.1%float /\ Np.std (repeat 0.1%float 8) = 0%float.
Proof. vm_compute. split; reflexivity. Qed.

(** ** Timestamps and client addresses *)

Example strptime_padded :
  Strptime.strptime "2025-08-07 16:55:00" = Some (mk_datetime 2025 8 7 16 55 0).
Proof. vm_compute. reflexivity. Qed.

(** Fields without their leading zero and several blanks are read too. *)
Example strptime_unpadded :
  Strptime.strptime "2025-8-7   1:5:0" = Some (mk_datetime 2025 8 7 1 5 0).
Proof. vm_compute. reflexivity. Qed.

Example strptime_leap_day :
  Strptime.strptime "2024-02-29 23:59:59" = Some (mk_datetime 2024 2 29 23 59 59)
  /\ Strptime.strptime "2025-02-29 23:59:59" = None.
Proof. vm_compute. split; reflexivity. Qed.

Example strptime_rejects :
  Strptime.strptime "2025-13-01 00:00:00" = None      (* no such month *)
  /\ Strptime.strptime "2025-08-07 24:00:00" = None   (* no such hour *)
  /\ Strptime.strptime "2025-08-07 16:55:60" = None   (* matched, but no such second *)
  /\ Strptime.strptime "2025-08-07T16:55:00" = None   (* no blank *)
  /\ Strptime.strptime "2025-08-07 16:55:00Z" = None  (* unconverted data *)
  /\ Strptime.strptime "0000-01-01 00:00:00" = None   (* no such year *)
  /\ Strptime.strptime "" = None.
Proof. vm_compute. repeat split. Qed.

(** Every timestamp that is read has its fields in range. *)
Lemma strptime_in_range (s : string) (t : datetime) :
  Strptime.strptime s = Some t ->
  1 <= year t <= 9999 /\ 1 <= month t <= 12 /\ 1 <= day t <= 31
  /\ 0 <= hour t <= 23 /\ 0 <= minute t <= 59 /\ 0 <= second t <= 59.
Proof.
  unfold Strptime.strptime.
  destruct (Strptime.format_regex_match (list_ascii_of_string s)) as [[found rest] |];
    [| discriminate].
  destruct rest; [| discriminate].
  destruct (Strptime.check_date_fields _ _ _) eqn:Hdate; [| discriminate].
  destruct (Strptime.check_time_fields _ _ _) eqn:Htime; [| discriminate].
  cbn [andb]. intros [= <-]. cbn [year month day hour minute second].
  unfold Strptime.check_date_fields, Strptime.check_time_fields in *.
  repeat (apply andb_true_iff in Hdate as [Hdate ?]).
  repeat (apply andb_true_iff in Htime as [Htime ?]).
  assert (Hdays : Strptime.days_in_month (Py.int (Strptime.g_Y found))
                    (Py.int (Strptime.g_m found)) <= 31).
  { unfold Strptime.days_in_month.
    repeat match goal with |- context [if ?b then _ else _] => destruct b end; lia. }
  lia.
Qed.

Example client_ip_direct : get_client_ip (mk_Request None "192.0.2.1") = "192.0.2.1".
Proof. reflexivity. Qed.

Example client_ip_forwarded :
  get_client_ip (mk_Request (Some " 203.0.113.5 , 10.0.0.1") "10.0.0.7") = "203.0.113.5".
Proof. vm_compute. reflexivity. Qed.

Example client_ip_empty_header :
  get_client_ip (mk_Request (Some "") "10.0.0.7") = "10.0.0.7".
Proof. reflexivity. Qed.

(** ** AnomalyDetector *)

(** The length test of line 65. *)
Lemma length_test_quiet
    (past_txns : list StoredTransaction) (current_amount : float)
    (window_size : Z) (z_thresh : float) :
  (length (amount_window past_txns window_size) <? 2)%nat = true ->
  detect_behavioral_anomaly past_txns current_amount window_size z_thresh = false.
Proof.
  intros Htest. unfold detect_behavioral_anomaly. rewrite Htest. reflexivity.
Qed.

(** C2. A window of fewer than two amounts is never flagged, whatever the
    current amount, the window size and the threshold are. *)
Theorem short_window_never_flags
    (past_txns : list StoredTransaction) (current_amount : float)
    (window_size : Z) (z_thresh : float) :
  (length (amount_window past_txns window_size) < 2)%nat ->
  detect_behavioral_anomaly past_txns current_amount window_size z_thresh = false.
Proof.
  intros Hshort. apply length_test_quiet. apply Nat.ltb_lt. exact Hshort.
Qed.

Lemma short_window_never_flags_witness :
  (length (amount_window (Samples.history [50%float]) 5) < 2)%nat
  /\ detect_behavioral_anomaly (Samples.history [50%float]) 1000000%float 5 2.5%float = false.
Proof.
  split.
  - vm_compute. lia.
  - apply (short_window_never_flags (Samples.history [50%float]) 1000000%float 5 2.5%float).
    vm_compute. lia.
Defined.

(** A history of fewer than two transactions gives such a window. *)
Lemma short_history_never_flags
    (past_txns : list StoredTransaction) (current_amount : float)
    (window_size : Z) (z_thresh : float) :
  (length past_txns < 2)%nat ->
  detect_behavioral_anomaly past_txns current_amount window_size z_thresh = false.
Proof.
  intros Hshort. apply length_test_quiet. apply Nat.ltb_lt.
  unfold amount_window.
  pose proof (slice_from_length (- window_size) (map doc_amount past_txns)) as Hle.
  rewrite length_map in Hle. lia.
Qed.

(** So does a window size of 1. *)
Lemma window_of_one_never_flags
    (past_txns : list StoredTransaction) (current_amount z_thresh : float) :
  detect_behavioral_anomaly past_txns current_amount 1 z_thresh = false.
Proof.
  apply length_test_quiet. apply Nat.ltb_lt. unfold amount_window.
  pose proof (slice_from_last 1 (map doc_amount past_txns)). lia.
Qed.

(** A window size of 0 is no window at all: [amounts[-0:]] is the whole
    list. *)
Example window_of_zero_is_everything :
  amount_window (Samples.history [1; 2; 3]%float) 0 = [1; 2; 3]%float.
Proof. reflexivity. Qed.

(** Two floats that are equal are equal for [=?]'s purposes too; used to
    tell computed floats apart. *)
Lemma float_eq_eqb (x y : float) : x = y -> (x =? y)%float = (y =? y)%float.
Proof. intros ->. reflexivity. Qed.

(** The arithmetic of three amounts of 0.1, step by step: the sum is
    rounded up, so the mean lies above 0.1 and every deviation from it is a
    tiny non-zero number. *)
Example equal_amounts_trace :
  let amounts := [0.1; 0.1; 0.1]%float in
  Np.sum amounts = 0.30000000000000004%float
  /\ Np.mean amounts = 0.10000000000000002%float
  /\ map (fun v => (v - Np.mean amounts)%float) amounts
     = [-1.3877787807814457e-17; -1.3877787807814457e-17; -1.3877787807814457e-17]%float
  /\ Np.std amounts = 1.3877787807814457e-17%float
  /\ (Np.std amounts =? 0)%float = false
  /\ (1e18 <? z_score amounts 100)%float = true.
Proof. vm_compute. repeat split. Qed.

(** Equal amounts do not make the detector quiet: the three equal amounts
    0.1 have the computed mean 0.10000000000000002, hence a computed
    deviation of about 1.4e-17 that is not 0, and a current amount of 100
    gets a huge z-score. *)
Lemma equal_amounts_can_flag :
  ~ (forall (past_txns : list StoredTransaction) (x current_amount : float),
       (2 <= length (amount_window past_txns 5))%nat ->
       Forall (fun a => a = x) (amount_window past_txns 5) ->
       z_score (amount_window past_txns 5) current_amount = 0%float
       /\ detect_behavioral_anomaly past_txns current_amount 5 2.5%float = false).
Proof.
  intros Hclaim.
  destruct (Hclaim (Samples.history [0.1; 0.1; 0.1]%float) 0.1%float 100%float)
    as [_ Hquiet].
  - vm_compute. lia.
  - vm_compute. repeat constructor.
  - vm_compute in Hquiet. discriminate Hquiet.
Qed.

(** The guard of line 69. *)
Lemma z_score_zero_std (amounts : list float) (current_amount : float) :
  (Np.std amounts =? 0)%float = true -> z_score amounts current_amount = 0%float.
Proof.
  intros Hstd. unfold z_score. rewrite Hstd. reflexivity.
Qed.

(** Where the guard does hold: when the standard deviation that [np.std]
    computes for the window is 0, the z-score is 0 for every current amount
    and nothing is flagged, for every threshold that is not negative. *)
Theorem zero_std_never_flags
    (past_txns : list StoredTransaction) (current_amount : float)
    (window_size : Z) (z_thresh : float) :
  (Np.std (amount_window past_txns window_size) =? 0)%float = true ->
  (z_thresh <? 0)%float = false ->
  z_score (amount_window past_txns window_size) current_amount = 0%float
  /\ detect_behavioral_anomaly past_txns current_amount window_size z_thresh = false.
Proof.
  intros Hstd Hthresh.
  pose proof (z_score_zero_std _ current_amount Hstd) as Hz.
  split; [exact Hz |].
  unfold detect_behavioral_anomaly.
  destruct (length (amount_window past_txns window_size) <? 2)%nat; [reflexivity |].
  rewrite Hz. exact Hthresh.
Qed.

Lemma zero_std_never_flags_witness :
  let past_txns := Samples.history [100; 100; 100; 100; 100]%float in
  z_score (amount_window past_txns 5) 1000000%float = 0%float
  /\ detect_behavioral_anomaly past_txns 1000000%float 5 2.5%float = false.
Proof.
  apply (zero_std_never_flags
           (Samples.history [100; 100; 100; 100; 100]%float) 1000000%float 5 2.5%float).
  - vm_compute. reflexivity.
  - vm_compute. reflexivity.
Defined.

(** The spec's two zero-variance windows, for every current amount. *)
Lemma constant_window_100_never_flags (current_amount : float) :
  detect_behavioral_anomaly
    (Samples.history [100; 100; 100; 100; 100]%float) current_amount 5 2.5%float = false.
Proof.
  unfold detect_behavioral_anomaly.
  change (amount_window _ 5) with [100; 100; 100; 100; 100]%float.
  rewrite z_score_zero_std by (vm_compute; reflexivity).
  reflexivity.
Qed.

Lemma constant_window_10_never_flags (current_amount : float) :
  detect_behavioral_anomaly
    (Samples.history [10; 10; 10; 10; 10]%float) current_amount 5 2.5%float = false.
Proof.
  unfold detect_behavioral_anomaly.
  change (amount_window _ 5) with [10; 10; 10; 10; 10]%float.
  rewrite z_score_zero_std by (vm_compute; reflexivity).
  reflexivity.
Qed.

(** C3. The code does not keep the zero-variance rule.  With five stored
    amounts of 0.11, a window of the endpoint's own size, the computed mean
    is 0.11000000000000001, every computed deviation from it is about
    -1.4e-17, and the computed standard deviation is about 1.4e-17, not 0:
    the guard [std != 0] lets the division through, the z-score of 0.12 is
    about 7.2e14 and the amount is flagged, although the five amounts are
    equal.  With five amounts of 0.10 the mean is exact, the deviation is 0,
    the z-score is 0 and 0.12 is not flagged. *)
Theorem equal_window_flagged :
  let past_txns := Samples.history [0.11; 0.11; 0.11; 0.11; 0.11]%float in
  let amounts := amount_window past_txns 5 in
  amounts = [0.11; 0.11; 0.11; 0.11; 0.11]%float
  /\ Forall (fun a => a = 0.11%float) amounts
  /\ Np.mean amounts = 0.11000000000000001%float
  /\ (Np.mean amounts =? 0.11)%float = false
  /\ Np.std amounts = 1.3877787807814457e-17%float
  /\ (Np.std amounts =? 0)%float = false
  /\ (z_score amounts 0.12 =? 0)%float = false
  /\ (7e14 <? z_score amounts 0.12)%float = true
  /\ detect_behavioral_anomaly past_txns 0.12%float 5 2.5%float = true
  /\ z_score (amount_window (Samples.history [0.1; 0.1; 0.1; 0.1; 0.1]%float) 5) 0.12
     = 0%float
  /\ detect_behavioral_anomaly (Samples.history [0.1; 0.1; 0.1; 0.1; 0.1]%float)
       0.12%float 5 2.5%float = false.
Proof.
  cbv zeta.
  assert (Hwindow : amount_window (Samples.history [0.11; 0.11; 0.11; 0.11; 0.11]%float) 5
                    = [0.11; 0.11; 0.11; 0.11; 0.11]%float) by reflexivity.
  rewrite Hwindow. split; [reflexivity |]. split; [repeat constructor |].
  vm_compute. repeat split.
Qed.

(** The same at the endpoint: after five accepted transactions of 0.11 on a
    card, a sixth of 0.12 at noon, from the same place and a clean address,
    is answered with fraud and the one reason of the anomaly check. *)
Example equal_window_flagged_by_check_fraud :
  result
    (check_fraud Samples.planar_km
       (mk_Transaction "tx-6" "2025-08-08 12:00:00" 0.12%float "Chennai" "visa" "INR"
          "5550001111" "5550002222")
       Samples.direct)
    (mk_State (Samples.history [0.11; 0.11; 0.11; 0.11; 0.11]%float) []
       {[ "visa" := "Chennai" ]})
  = Returned (mk_Response true ["Abnormal Amount (Behavioral)"]).
Proof. vm_compute. reflexivity. Qed.

(** C4, as stated, fails: the population variance of [10,20,10,20,10] is 24,
    so the standard deviation is the square root of 24, not 5, and the
    z-score of 200 is not 37.2. *)
Lemma sigma_is_not_5 :
  let amounts := [10; 20; 10; 20; 10]%float in
  ~ (Np.mean amounts = 14%float
     /\ Np.std amounts = 5%float
     /\ z_score amounts 200%float = 37.2%float
     /\ detect_behavioral_anomaly (Samples.history amounts) 200%float 5 2.5%float = true).
Proof.
  intros amounts (_ & Hstd & _).
  apply float_eq_eqb in Hstd. vm_compute in Hstd. discriminate Hstd.
Qed.

(** C4, amended. For the history [10,20,10,20,10] and the current amount
    200: the mean is 14, the population variance is 24, the standard
    deviation is sqrt(24) (between 4.898 and 4.899), the z-score is
    186 / sqrt(24) (between 37.96 and 37.97), and the amount is flagged. *)
Theorem example_history_flags :
  let past_txns := Samples.history [10; 20; 10; 20; 10]%float in
  let amounts := amount_window past_txns 5 in
  amounts = [10; 20; 10; 20; 10]%float
  /\ Np.mean amounts = 14%float
  /\ Np.var amounts = 24%float
  /\ Np.std amounts = PrimFloat.sqrt 24
  /\ (4.898 <? Np.std amounts)%float = true
  /\ (Np.std amounts <? 4.899)%float = true
  /\ z_score amounts 200%float = (186 / PrimFloat.sqrt 24)%float
  /\ (37.96 <? z_score amounts 200%float)%float = true
  /\ (z_score amounts 200%float <? 37.97)%float = true
  /\ detect_behavioral_anomaly past_txns 200%float 5 2.5%float = true.
Proof.
  vm_compute. repeat split.
Qed.

(** ** GeoDriftDetector *)

(** C6. No drift is reported when the current location is not in
    [location_lookup], when the card has no last known location, and when
    its last known location is not in [location_lookup]; whatever the other
    inputs are. *)
Theorem unknown_places_never_drift
    (geodesic_km : coords -> coords -> float)
    (lkl : gmap string string) (card current_location : string) (max_km : float) :
  (location_lookup !! current_location = None ->
   detect_geo_drift geodesic_km lkl card current_location max_km = false)
  /\ (lkl !! card = None ->
      detect_geo_drift geodesic_km lkl card current_location max_km = false)
  /\ (forall last_location : string,
        lkl !! card = Some last_location ->
        location_lookup !! last_location = None ->
        detect_geo_drift geodesic_km lkl card current_location max_km = false).
Proof.
  unfold detect_geo_drift. repeat split.
  - intros ->. reflexivity.
  - intros ->. destruct (location_lookup !! current_location); reflexivity.
  - intros last_location -> ->.
    destruct (location_lookup !! current_location); [| reflexivity].
    destruct (String.eqb last_location ""); reflexivity.
Qed.

(** The three cases at concrete inputs: an unknown current location with a
    known baseline far away, a card without baseline, and a baseline that is
    not a known place. *)
Lemma unknown_places_never_drift_witness :
  (location_lookup !! "Atlantis" = None
   /\ detect_geo_drift Samples.planar_km {[ "visa" := "Delhi" ]} "visa" "Atlantis" 500%float
      = false)
  /\ ((∅ : gmap string string) !! "visa" = None
      /\ detect_geo_drift Samples.planar_km ∅ "visa" "Chennai" 500%float = false)
  /\ (({[ "visa" := "Atlantis" ]} : gmap string string) !! "visa" = Some "Atlantis"
      /\ location_lookup !! "Atlantis" = None
      /\ detect_geo_drift Samples.planar_km {[ "visa" := "Atlantis" ]} "visa" "Chennai"
           500%float = false).
Proof.
  split; [| split].
  - split; [vm_compute; reflexivity |].
    apply (proj1 (unknown_places_never_drift Samples.planar_km
                    {[ "visa" := "Delhi" ]} "visa" "Atlantis" 500%float)).
    vm_compute; reflexivity.
  - split; [vm_compute; reflexivity |].
    apply (proj1 (proj2 (unknown_places_never_drift Samples.planar_km
                           ∅ "visa" "Chennai" 500%float))).
    vm_compute; reflexivity.
  - split; [vm_compute; reflexivity |]. split; [vm_compute; reflexivity |].
    apply (proj2 (proj2 (unknown_places_never_drift Samples.planar_km
                           {[ "visa" := "Atlantis" ]} "visa" "Chennai" 500%float))
             "Atlantis").
    + vm_compute; reflexivity.
    + vm_compute; reflexivity.
Defined.

(** With a known baseline the detector does compare distances: under the
    planar estimate, Chennai after Delhi drifts and Chennai after Bangalore
    does not. *)
Example drift_from_delhi :
  detect_geo_drift Samples.planar_km {[ "visa" := "Delhi" ]} "visa" "Chennai" 500%float = true.
Proof. vm_compute. reflexivity. Qed.

Example no_drift_from_bangalore :
  detect_geo_drift Samples.planar_km {[ "visa" := "Bangalore" ]} "visa" "Chennai" 500%float
  = false.
Proof. vm_compute. reflexivity. Qed.

(** ** The stores *)

Lemma state_eta (st : State) :
  mk_State (collection st) (blacklist_collection st) (last_known_location st) = st.
Proof. destruct st; reflexivity. Qed.

(** What one conditional insert does. *)
Lemma add_if_absent_run (value : string) (reason : list string) (ts : datetime) (st : State) :
  add_if_absent value reason ts st =
  (Returned tt,
   if is_blacklisted value st then st
   else mk_State (collection st)
                 (blacklist_collection st ++ [mk_BlacklistEntry "account" value reason ts])
                 (last_known_location st)).
Proof.
  unfold add_if_absent, is_blacklisted, find_one_account, gets, blacklist_insert_one, modify.
  unfold mbind, M_bind, mret, M_ret.
  destruct (bool_decide (is_Some (List.find (is_account_entry value) (blacklist_collection st))));
    reflexivity.
Qed.

Lemma add_all_run (accounts : list string) (reason : list string) (ts : datetime) (st : State) :
  for_each accounts (fun account => add_if_absent account reason ts) st =
  (Returned tt, exec (for_each accounts (fun account => add_if_absent account reason ts)) st).
Proof.
  revert st. induction accounts as [| a accounts IH]; intros st.
  - reflexivity.
  - unfold exec. cbn [for_each]. unfold mbind, M_bind.
    rewrite add_if_absent_run. rewrite IH. reflexivity.
Qed.

(** The conditional inserts touch the blacklist store only. *)
Lemma add_all_frame (accounts : list string) (reason : list string) (ts : datetime) (st : State) :
  collection (exec (for_each accounts (fun account => add_if_absent account reason ts)) st)
  = collection st
  /\ last_known_location
       (exec (for_each accounts (fun account => add_if_absent account reason ts)) st)
     = last_known_location st.
Proof.
  revert st. induction accounts as [| a accounts IH]; intros st.
  - split; reflexivity.
  - unfold exec. cbn [for_each]. unfold mbind, M_bind.
    rewrite add_if_absent_run.
    specialize (IH (if is_blacklisted a st then st
                    else mk_State (collection st)
                           (blacklist_collection st ++ [mk_BlacklistEntry "account" a reason ts])
                           (last_known_location st))).
    unfold exec in IH. destruct IH as [IHc IHl].
    rewrite IHc, IHl. destruct (is_blacklisted a st); split; reflexivity.
Qed.

(** *** Entries per account *)

Lemma is_account_entry_spec (value : string) (e : BlacklistEntry) :
  is_account_entry value e = true <-> is_account e = true /\ bl_value e = value.
Proof.
  unfold is_account_entry, is_account.
  rewrite andb_true_iff, (String.eqb_eq (bl_value e)). reflexivity.
Qed.

Lemma is_blacklisted_false (value : string) (st : State) :
  is_blacklisted value st = false ->
  forall e, In e (blacklist_collection st) -> is_account_entry value e = false.
Proof.
  unfold is_blacklisted. intros Hnone e He.
  destruct (List.find (is_account_entry value) (blacklist_collection st)) as [e' |] eqn:Hfind.
  - rewrite bool_decide_eq_false in Hnone. exfalso. apply Hnone. eexists. reflexivity.
  - exact (find_none _ _ Hfind e He).
Qed.

Lemma is_blacklisted_true (value : string) (st : State) :
  is_blacklisted value st = true ->
  exists e, In e (entries_of value (blacklist_collection st)).
Proof.
  unfold is_blacklisted, entries_of. intros Hsome.
  rewrite bool_decide_eq_true in Hsome. destruct Hsome as [e Hfind].
  exists e. apply find_some in Hfind. apply filter_In. exact Hfind.
Qed.

Lemma entry_value_listed (value : string) (store : list BlacklistEntry) (e : BlacklistEntry) :
  In e (entries_of value store) ->
  In value (map bl_value (List.filter is_account store)).
Proof.
  unfold entries_of. intros He. apply filter_In in He as [He Hm].
  apply is_account_entry_spec in Hm as [Hacc <-].
  apply in_map. apply filter_In. split; assumption.
Qed.

Lemma no_entry_filter_nil (value : string) (store : list BlacklistEntry) :
  (forall e, In e store -> is_account_entry value e = false) ->
  entries_of value store = [].
Proof.
  unfold entries_of. induction store as [| e store IH]; intros Hall; [reflexivity |].
  cbn [List.filter]. rewrite (Hall e (or_introl eq_refl)).
  apply IH. intros e' He'. apply Hall. right. exact He'.
Qed.

(** In a store with distinct account values an account has at most one entry. *)
Lemma unique_at_most_one (value : string) (store : list BlacklistEntry) :
  unique_accounts store -> (length (entries_of value store) <= 1)%nat.
Proof.
  unfold unique_accounts. fold is_account.
  induction store as [| e store IH]; intros Hnd; [cbn; lia |].
  unfold entries_of in *. cbn [List.filter] in *.
  destruct (is_account_entry value e) eqn:Hm.
  - apply is_account_entry_spec in Hm as [Hacc Hval].
    rewrite Hacc in Hnd. cbn [map] in Hnd. apply List.NoDup_cons_iff in Hnd as [Hfresh Hnd].
    destruct (List.filter (is_account_entry value) store) as [| e' rest] eqn:Hrest.
    + cbn. lia.
    + exfalso. apply Hfresh. rewrite Hval.
      apply (entry_value_listed value store e').
      unfold entries_of. rewrite Hrest. left. reflexivity.
  - apply IH. destruct (is_account e); [| exact Hnd].
    cbn [map] in Hnd. apply List.NoDup_cons_iff in Hnd as [_ Hnd]. exact Hnd.
Qed.

(** One conditional insert keeps the account values distinct. *)
Lemma add_if_absent_unique (value : string) (reason : list string) (ts : datetime) (st : State) :
  unique_accounts (blacklist_collection st) ->
  unique_accounts (blacklist_collection (exec (add_if_absent value reason ts) st)).
Proof.
  intros Hnd. unfold exec. rewrite add_if_absent_run. cbn [snd].
  destruct (is_blacklisted value st) eqn:Hb; [exact Hnd |].
  cbn [blacklist_collection]. unfold unique_accounts in *.
  rewrite List.filter_app, map_app. cbn.
  apply List.NoDup_app; [exact Hnd | repeat constructor; intros [] |].
  intros v Hin [Heq | []]. subst v.
  apply in_map_iff in Hin as (e & Hval & He).
  apply filter_In in He as [He Hacc].
  pose proof (is_blacklisted_false value st Hb e He) as Hno.
  assert (Hyes : is_account_entry value e = true).
  { apply is_account_entry_spec. split; assumption. }
  congruence.
Qed.

Lemma add_all_unique (accounts : list string) (reason : list string) (ts : datetime) (st : State) :
  unique_accounts (blacklist_collection st) ->
  unique_accounts
    (blacklist_collection
       (exec (for_each accounts (fun account => add_if_absent account reason ts)) st)).
Proof.
  revert st. induction accounts as [| a accounts IH]; intros st Hnd; [exact Hnd |].
  unfold exec. cbn [for_each]. unfold mbind, M_bind.
  pose proof (add_if_absent_unique a reason ts st Hnd) as Hstep.
  unfold exec in Hstep. destruct (add_if_absent a reason ts st) as [[[] | e] st1] eqn:Hrun.
  - apply IH. exact Hstep.
  - rewrite add_if_absent_run in Hrun. discriminate Hrun.
Qed.

(** The seeding loop keeps them distinct, whatever the clock says. *)
Lemma startup_unique (datetime_now : string -> datetime) (st : State) :
  unique_accounts (blacklist_collection st) ->
  unique_accounts (blacklist_collection (exec (startup datetime_now) st)).
Proof.
  intros Hnd. unfold startup, startup_blacklisted_accounts, exec.
  cbn [for_each]. unfold mbind, M_bind, mret, M_ret.
  rewrite !add_if_absent_run.
  pose proof (add_if_absent_unique "9876543210" ["Predefined blacklist"]
                (datetime_now "9876543210") st Hnd) as H1.
  unfold exec in H1. rewrite add_if_absent_run in H1. cbn [snd] in H1.
  pose proof (add_if_absent_unique "1111222233" ["Predefined blacklist"]
                (datetime_now "1111222233") _ H1) as H2.
  unfold exec in H2. rewrite add_if_absent_run in H2. exact H2.
Qed.

Lemma find_app_some {A : Type} (f : A -> bool) (l l' : list A) (x : A) :
  List.find f l = Some x -> List.find f (l ++ l') = Some x.
Proof.
  induction l as [| a l IH]; [discriminate |].
  cbn [List.find app]. destruct (f a); [intros H; exact H | exact IH].
Qed.

(** Once listed, always listed; and a conditional insert lists its account. *)
Lemma add_if_absent_keeps (w value : string) (reason : list string) (ts : datetime)
    (st : State) :
  is_blacklisted w st = true ->
  is_blacklisted w (exec (add_if_absent value reason ts) st) = true.
Proof.
  intros Hw. unfold exec. rewrite add_if_absent_run. cbn [snd].
  destruct (is_blacklisted value st); [exact Hw |].
  unfold is_blacklisted in *. cbn [blacklist_collection].
  rewrite bool_decide_eq_true in Hw. destruct Hw as [e Hfind].
  apply bool_decide_eq_true. exists e. apply find_app_some. exact Hfind.
Qed.

Lemma add_if_absent_lists (value : string) (reason : list string) (ts : datetime) (st : State) :
  is_blacklisted value (exec (add_if_absent value reason ts) st) = true.
Proof.
  unfold exec. rewrite add_if_absent_run. cbn [snd].
  destruct (is_blacklisted value st) eqn:Hb; [exact Hb |].
  unfold is_blacklisted. cbn [blacklist_collection].
  apply bool_decide_eq_true.
  destruct (List.find (is_account_entry value)
              (blacklist_collection st ++ [mk_BlacklistEntry "account" value reason ts]))
    eqn:Hfind; [eexists; reflexivity |].
  exfalso.
  pose proof (find_none _ _ Hfind (mk_BlacklistEntry "account" value reason ts)) as Hno.
  rewrite in_app_iff in Hno. specialize (Hno (or_intror (or_introl eq_refl))).
  unfold is_account_entry in Hno. cbn in Hno. rewrite String.eqb_refl in Hno.
  discriminate Hno.
Qed.

Lemma add_if_absent_noop (value : string) (reason : list string) (ts : datetime) (st : State) :
  is_blacklisted value st = true -> exec (add_if_absent value reason ts) st = st.
Proof.
  intros Hb. unfold exec. rewrite add_if_absent_run. cbn [snd]. rewrite Hb. reflexivity.
Qed.

(** Seeding again at a later start adds nothing: the entries of the first
    start stay, with their timestamps. *)
Lemma startup_idempotent (now1 now2 : string -> datetime) (st : State) :
  blacklist_collection (exec (startup now2) (restart (exec (startup now1) st)))
  = blacklist_collection (exec (startup now1) st).
Proof.
  assert (Hstart : forall now st0,
            exec (startup now) st0 =
            exec (add_if_absent "1111222233" ["Predefined blacklist"] (now "1111222233"))
              (exec (add_if_absent "9876543210" ["Predefined blacklist"] (now "9876543210"))
                 st0)).
  { intros now st0. unfold startup, startup_blacklisted_accounts, exec.
    cbn [for_each]. unfold mbind, M_bind, mret, M_ret.
    rewrite !add_if_absent_run. reflexivity. }
  rewrite (Hstart now2). set (st1 := exec (startup now1) st).
  assert (H1 : is_blacklisted "9876543210" st1 = true).
  { subst st1. rewrite Hstart. apply add_if_absent_keeps. apply add_if_absent_lists. }
  assert (H2 : is_blacklisted "1111222233" st1 = true).
  { subst st1. rewrite Hstart. apply add_if_absent_lists. }
  rewrite (add_if_absent_noop "9876543210" _ _ (restart st1)) by exact H1.
  rewrite (add_if_absent_noop "1111222233" _ _ (restart st1)) by exact H2.
  reflexivity.
Qed.

(** ** FraudEngine *)

(** Six conditional appends in a row collect the reasons of the checks that
    fired, in order, and the disjunction of the conditions. *)
Lemma flag_if_chain (c1 c2 c3 c4 c5 c6 : bool) (r1 r2 r3 r4 r5 r6 : string) :
  flag_if c6 r6 (flag_if c5 r5 (flag_if c4 r4 (flag_if c3 r3 (flag_if c2 r2
    (flag_if c1 r1 ([], false)))))) =
  (map snd (List.filter fst [(c1, r1); (c2, r2); (c3, r3); (c4, r4); (c5, r5); (c6, r6)]),
   existsb fst [(c1, r1); (c2, r2); (c3, r3); (c4, r4); (c5, r5); (c6, r6)]).
Proof.
  destruct c1, c2, c3, c4, c5, c6; reflexivity.
Qed.

(** The reasons collected from a list of checks. *)
Lemma fired_In (x : string) (cs : list (bool * string)) :
  In x (map snd (List.filter fst cs)) <-> In (true, x) cs.
Proof.
  induction cs as [| [c r] cs IH]; [reflexivity |].
  cbn [List.filter fst]. destruct c; cbn [map snd In]; rewrite IH.
  - split; (intros [H | H]; [left | right]); congruence.
  - split; [intros H; right; exact H | intros [H | H]; [discriminate H | exact H]].
Qed.

Lemma fired_nonempty (cs : list (bool * string)) :
  existsb fst cs = true <-> map snd (List.filter fst cs) <> [].
Proof.
  induction cs as [| [c r] cs IH]; cbn [existsb List.filter fst].
  - split; [discriminate | intros H; contradiction H; reflexivity].
  - destruct c; cbn [orb map].
    + split; [discriminate | reflexivity].
    + exact IH.
Qed.

Lemma fired_six (c1 c2 c3 c4 c5 c6 : bool) (r1 r2 r3 r4 r5 r6 : string) :
  let cs := [(c1, r1); (c2, r2); (c3, r3); (c4, r4); (c5, r5); (c6, r6)] in
  existsb fst cs = c1 || c2 || c3 || c4 || c5 || c6
  /\ map snd (List.filter fst cs) =
     ((if c1 then [r1] else []) ++ (if c2 then [r2] else []) ++ (if c3 then [r3] else [])
      ++ (if c4 then [r4] else []) ++ (if c5 then [r5] else []) ++ (if c6 then [r6] else []))%list.
Proof.
  destruct c1, c2, c3, c4, c5, c6; split; reflexivity.
Qed.

Lemma odd_hour_spec (now : datetime) : odd_hour now = true <-> 0 <= hour now < 4.
Proof. unfold odd_hour. rewrite andb_true_iff, Z.leb_le, Z.ltb_lt. reflexivity. Qed.

Section EngineProperties.

Variable geodesic_km : coords -> coords -> float.

(** The outcome and the final state of a call whose timestamp parses. *)
Lemma check_fraud_run (txn : Transaction) (request : Request) (st : State) (now : datetime) :
  Strptime.strptime (timestamp txn) = Some now ->
  let cs := checks geodesic_km txn request now st in
  let is_fraud := existsb fst cs in
  let reasons := map snd (List.filter fst cs) in
  check_fraud geodesic_km txn request st =
  (Returned (mk_Response is_fraud reasons),
   exec (if is_fraud
         then for_each [recipient_account_number txn; sender_account_number txn]
                (fun account => add_if_absent account reasons now)
         else mret tt)
        (mk_State
           (collection st ++ [stored_doc txn request now is_fraud reasons])
           (blacklist_collection st)
           (if is_fraud then last_known_location st
            else <[card_type txn := location txn]> (last_known_location st)))).
Proof.
  intros Hparse cs is_fraud reasons.
  unfold check_fraud. rewrite Hparse.
  cbv beta iota zeta delta
    [mbind M_bind mret M_ret gets modify find_one_account find_by_card_type
     collection_insert_one last_known_location_set].
  rewrite flag_if_chain.
  change (existsb fst _) with is_fraud.
  change (map snd (List.filter fst _)) with reasons.
  cbn [fst snd].
  destruct is_fraud; cbn [negb].
  - rewrite add_all_run. reflexivity.
  - reflexivity.
Qed.


Lemma check_fraud_unparsed (txn : Transaction) (request : Request) (st : State) :
  Strptime.strptime (timestamp txn) = None ->
  check_fraud geodesic_km txn request st = (Raised ValueError, st).
Proof.
  intros Hparse. unfold check_fraud. rewrite Hparse. reflexivity.
Qed.

(** The odd-hour reason is the reason of the odd-hour check alone. *)
Lemma odd_reason_fired (txn : Transaction) (request : Request) (st : State) (now : datetime) :
  In "Transaction During Odd Hours (12 AM - 4 AM)"
     (map snd (List.filter fst (checks geodesic_km txn request now st)))
  <-> odd_hour now = true.
Proof.
  rewrite fired_In. unfold checks. cbn [In app String.append].
  split.
  - intros [H | [H | [H | [H | [H | [H | []]]]]]];
      try discriminate H; congruence.
  - intros ->. do 3 right. left. reflexivity.
Qed.

(** C1. A call whose timestamp parses runs the six checks in the order
    client IP, recipient account, sender account, odd hour, behavioral
    anomaly, geo drift, each on the state before the call; the reasons are
    those of the checks that fired, one each, in that order, and the
    verdict is the disjunction of the six. *)
Theorem all_checks_run_in_order
    (txn : Transaction) (request : Request) (st : State) (now : datetime) :
  Strptime.strptime (timestamp txn) = Some now ->
  let client_ip := get_client_ip request in
  let ip_listed := bool_decide (client_ip ∈ BLACKLISTED_IPS) in
  let recipient_listed := is_blacklisted (recipient_account_number txn) st in
  let sender_listed := is_blacklisted (sender_account_number txn) st in
  let odd := (0 <=? hour now) && (hour now <? 4) in
  let anomaly :=
    detect_behavioral_anomaly (card_history (card_type txn) st) (amount txn) 5 2.5%float in
  let drift :=
    detect_geo_drift geodesic_km (last_known_location st) (card_type txn) (location txn)
      500%float in
  result (check_fraud geodesic_km txn request) st =
  Returned
    {| fraud := ip_listed || recipient_listed || sender_listed || odd || anomaly || drift;
       reasons :=
         ((if ip_listed then ["Blacklisted IP Address: " +:+ client_ip] else [])
          ++ (if recipient_listed
              then ["Blacklisted Recipient Account: " +:+ recipient_account_number txn]
              else [])
          ++ (if sender_listed
              then ["Blacklisted Sender Account: " +:+ sender_account_number txn]
              else [])
          ++ (if odd then ["Transaction During Odd Hours (12 AM - 4 AM)"] else [])
          ++ (if anomaly then ["Abnormal Amount (Behavioral)"] else [])
          ++ (if drift then ["Geo Drift Detected"] else []))%list |}.
Proof.
  intros Hparse client_ip ip_listed recipient_listed sender_listed odd anomaly drift.
  unfold result. rewrite (check_fraud_run txn request st now Hparse). cbn [fst].
  unfold checks.
  destruct (fired_six ip_listed recipient_listed sender_listed odd anomaly drift
              ("Blacklisted IP Address: " +:+ client_ip)
              ("Blacklisted Recipient Account: " +:+ recipient_account_number txn)
              ("Blacklisted Sender Account: " +:+ sender_account_number txn)
              "Transaction During Odd Hours (12 AM - 4 AM)"
              "Abnormal Amount (Behavioral)" "Geo Drift Detected") as [Hor Hrs].
  cbn zeta in Hor, Hrs. fold client_ip. fold (odd_hour now).
  change (odd_hour now) with odd. fold anomaly. fold drift.
  fold ip_listed. fold recipient_listed. fold sender_listed.
  rewrite <- Hor, <- Hrs. reflexivity.
Qed.

(** C5. In a call whose timestamp parses, the reason
    "Transaction During Odd Hours (12 AM - 4 AM)" is among the returned
    reasons exactly when the hour of the timestamp is in [0, 4). *)
Theorem odd_hour_window
    (txn : Transaction) (request : Request) (st : State) (now : datetime) :
  Strptime.strptime (timestamp txn) = Some now ->
  exists resp : Response,
    result (check_fraud geodesic_km txn request) st = Returned resp
    /\ (In "Transaction During Odd Hours (12 AM - 4 AM)" (reasons resp)
        <-> 0 <= hour now < 4).
Proof.
  intros Hparse. eexists. split.
  - unfold result. rewrite (check_fraud_run txn request st now Hparse). reflexivity.
  - cbn [reasons]. rewrite odd_reason_fired. apply odd_hour_spec.
Qed.

(** C7. After a call whose timestamp parses, [last_known_location] is
    the dictionary of before with the card's entry set to the
    transaction's location when the verdict is non-fraud, and is the
    dictionary of before, unchanged for every card, when the verdict is
    fraud. *)
Theorem last_location_follows_verdict
    (txn : Transaction) (request : Request) (st : State) (now : datetime) :
  Strptime.strptime (timestamp txn) = Some now ->
  exists resp : Response,
    result (check_fraud geodesic_km txn request) st = Returned resp
    /\ last_known_location (exec (check_fraud geodesic_km txn request) st) =
       (if fraud resp then last_known_location st
        else <[card_type txn := location txn]> (last_known_location st)).
Proof.
  intros Hparse. eexists. unfold result, exec.
  rewrite (check_fraud_run txn request st now Hparse). cbn [fst snd].
  split; [reflexivity |]. cbn [fraud].
  destruct (existsb fst (checks geodesic_km txn request now st)).
  - rewrite (proj2 (add_all_frame _ _ _ _)). reflexivity.
  - reflexivity.
Qed.

(** C9, amended. A call whose timestamp [strptime] rejects raises
    [ValueError] and leaves the state as it was: nothing is stored,
    nothing is blacklisted, no location is recorded. *)
Theorem rejected_timestamp_changes_nothing
    (txn : Transaction) (request : Request) (st : State) :
  Strptime.strptime (timestamp txn) = None ->
  result (check_fraud geodesic_km txn request) st = Raised ValueError
  /\ exec (check_fraud geodesic_km txn request) st = st.
Proof.
  intros Hparse. unfold result, exec.
  rewrite (check_fraud_unparsed txn request st Hparse). split; reflexivity.
Qed.

(** C10. In a call whose timestamp parses, the returned flag is true
    exactly when the returned list of reasons is not empty, and the
    history afterwards is the history of before followed by one document,
    which carries the transaction with this flag and this list. *)
Theorem verdict_reasons_and_record_agree
    (txn : Transaction) (request : Request) (st : State) (now : datetime) :
  Strptime.strptime (timestamp txn) = Some now ->
  exists resp : Response,
    result (check_fraud geodesic_km txn request) st = Returned resp
    /\ (fraud resp = true <-> reasons resp <> [])
    /\ collection (exec (check_fraud geodesic_km txn request) st) =
       (collection st ++ [stored_doc txn request now (fraud resp) (reasons resp)])%list.
Proof.
  intros Hparse. eexists. unfold result, exec.
  rewrite (check_fraud_run txn request st now Hparse). cbn [fst snd].
  split; [reflexivity |]. cbn [fraud reasons]. split; [apply fired_nonempty |].
  destruct (existsb fst (checks geodesic_km txn request now st)).
  - rewrite (proj1 (add_all_frame _ _ _ _)). reflexivity.
  - reflexivity.
Qed.

(** A call keeps the account values of the blacklist distinct. *)
Lemma check_fraud_unique (txn : Transaction) (request : Request) (st : State) :
  unique_accounts (blacklist_collection st) ->
  unique_accounts (blacklist_collection (exec (check_fraud geodesic_km txn request) st)).
Proof.
  intros Hnd. unfold exec.
  destruct (Strptime.strptime (timestamp txn)) as [now |] eqn:Hparse.
  - rewrite (check_fraud_run txn request st now Hparse). cbn [snd].
    destruct (existsb fst (checks geodesic_km txn request now st)).
    + apply add_all_unique. exact Hnd.
    + exact Hnd.
  - rewrite (check_fraud_unparsed txn request st Hparse). exact Hnd.
Qed.

(** Every state of a deployment has distinct account values. *)
Lemma reachable_unique (st : State) :
  reachable geodesic_km st -> unique_accounts (blacklist_collection st).
Proof.
  induction 1 as [datetime_now | st datetime_now _ IH | st txn request _ IH].
  - apply startup_unique. constructor.
  - apply startup_unique. exact IH.
  - apply check_fraud_unique. exact IH.
Qed.

(** C8. In every state of a deployment the blacklist has at most one
    entry per account value; two conditional inserts for the same account
    leave exactly one entry for it, the second insert changes nothing, and
    when the account was not listed before, the entry is the one of the
    first insert, with the first reasons. *)
Theorem one_entry_per_account
    (st : State) (value : string) (reason1 reason2 : list string) (ts1 ts2 : datetime) :
  reachable geodesic_km st ->
  let st1 := exec (add_if_absent value reason1 ts1) st in
  let st2 := exec (add_if_absent value reason2 ts2) st1 in
  unique_accounts (blacklist_collection st)
  /\ st2 = st1
  /\ length (entries_of value (blacklist_collection st2)) = 1%nat
  /\ unique_accounts (blacklist_collection st2)
  /\ (is_blacklisted value st = false ->
      entries_of value (blacklist_collection st2)
      = [mk_BlacklistEntry "account" value reason1 ts1])
  /\ (is_blacklisted value st = true -> st2 = st).
Proof.
  intros Hreach st1 st2. pose proof (reachable_unique st Hreach) as Hnd.
  pose proof (add_if_absent_unique value reason1 ts1 st Hnd) as Hnd1. fold st1 in Hnd1.
  assert (Hlisted : is_blacklisted value st1 = true).
  { subst st1. apply add_if_absent_lists. }
  assert (Hsame : st2 = st1).
  { subst st2. unfold exec. rewrite add_if_absent_run. cbn [snd].
    rewrite Hlisted. reflexivity. }
  split; [exact Hnd |]. split; [exact Hsame |]. rewrite Hsame.
  split; [| split; [exact Hnd1 | split]].
  - pose proof (unique_at_most_one value _ Hnd1) as Hle.
    destruct (is_blacklisted_true value st1 Hlisted) as [e He].
    destruct (entries_of value (blacklist_collection st1)); [destruct He |].
    cbn [length] in *. lia.
  - intros Hb. subst st1. unfold exec. rewrite add_if_absent_run. cbn [snd].
    rewrite Hb. cbn [blacklist_collection]. unfold entries_of.
    rewrite List.filter_app.
    pose proof (no_entry_filter_nil value _ (is_blacklisted_false value st Hb)) as Hnil.
    unfold entries_of in Hnil. rewrite Hnil. cbn.
    unfold is_account_entry. cbn. rewrite String.eqb_refl. reflexivity.
  - intros Hb. subst st1. unfold exec. rewrite add_if_absent_run. cbn [snd].
    rewrite Hb. reflexivity.
Qed.

End EngineProperties.

(** ** The properties at concrete requests *)

Lemma all_checks_run_in_order_witness :
  result (check_fraud Samples.planar_km Samples.night_txn Samples.forwarded) Samples.seeded =
  Returned
    {| fraud := true;
       reasons := [ "Blacklisted IP Address: 203.0.113.5";
                    "Blacklisted Recipient Account: 9876543210";
                    "Transaction During Odd Hours (12 AM - 4 AM)" ] |}.
Proof.
  etransitivity.
  - apply (all_checks_run_in_order Samples.planar_km Samples.night_txn Samples.forwarded
             Samples.seeded (mk_datetime 2025 8 7 2 30 0)).
    vm_compute. reflexivity.
  - vm_compute. reflexivity.
Defined.

(** Hour 2 is flagged; hour 4 and hour 23 are not. *)
Lemma odd_hour_window_witness :
  (exists resp : Response,
     result (check_fraud Samples.planar_km (Samples.txn_at "2025-08-07 02:00:00")
               Samples.direct) Samples.seeded = Returned resp
     /\ (In "Transaction During Odd Hours (12 AM - 4 AM)" (reasons resp) <-> 0 <= 2 < 4))
  /\ (exists resp : Response,
        result (check_fraud Samples.planar_km (Samples.txn_at "2025-08-07 04:00:00")
                  Samples.direct) Samples.seeded = Returned resp
        /\ (In "Transaction During Odd Hours (12 AM - 4 AM)" (reasons resp) <-> 0 <= 4 < 4))
  /\ (exists resp : Response,
        result (check_fraud Samples.planar_km (Samples.txn_at "2025-08-07 23:00:00")
                  Samples.direct) Samples.seeded = Returned resp
        /\ (In "Transaction During Odd Hours (12 AM - 4 AM)" (reasons resp) <-> 0 <= 23 < 4)).
Proof.
  split; [| split].
  - apply (odd_hour_window Samples.planar_km (Samples.txn_at "2025-08-07 02:00:00")
             Samples.direct Samples.seeded (mk_datetime 2025 8 7 2 0 0)).
    vm_compute. reflexivity.
  - apply (odd_hour_window Samples.planar_km (Samples.txn_at "2025-08-07 04:00:00")
             Samples.direct Samples.seeded (mk_datetime 2025 8 7 4 0 0)).
    vm_compute. reflexivity.
  - apply (odd_hour_window Samples.planar_km (Samples.txn_at "2025-08-07 23:00:00")
             Samples.direct Samples.seeded (mk_datetime 2025 8 7 23 0 0)).
    vm_compute. reflexivity.
Defined.

(** An accepted transaction at noon and a flagged one at night. *)
Lemma last_location_follows_verdict_witness :
  (exists resp : Response,
     result (check_fraud Samples.planar_km (Samples.txn_at "2025-08-07 12:00:00")
               Samples.direct) Samples.seeded = Returned resp
     /\ last_known_location
          (exec (check_fraud Samples.planar_km (Samples.txn_at "2025-08-07 12:00:00")
                   Samples.direct) Samples.seeded) =
        (if fraud resp then last_known_location Samples.seeded
         else <["visa" := "Chennai"]> (last_known_location Samples.seeded)))
  /\ (exists resp : Response,
        result (check_fraud Samples.planar_km Samples.night_txn Samples.forwarded)
          Samples.seeded = Returned resp
        /\ last_known_location
             (exec (check_fraud Samples.planar_km Samples.night_txn Samples.forwarded)
                Samples.seeded) =
           (if fraud resp then last_known_location Samples.seeded
            else <["visa" := "Delhi"]> (last_known_location Samples.seeded))).
Proof.
  split.
  - apply (last_location_follows_verdict Samples.planar_km
             (Samples.txn_at "2025-08-07 12:00:00") Samples.direct Samples.seeded
             (mk_datetime 2025 8 7 12 0 0)).
    vm_compute. reflexivity.
  - apply (last_location_follows_verdict Samples.planar_km Samples.night_txn
             Samples.forwarded Samples.seeded (mk_datetime 2025 8 7 2 30 0)).
    vm_compute. reflexivity.
Defined.

Example accepted_location_recorded :
  last_known_location
    (exec (check_fraud Samples.planar_km (Samples.txn_at "2025-08-07 12:00:00")
             Samples.direct) Samples.seeded) !! "visa" = Some "Chennai".
Proof. vm_compute. reflexivity. Qed.

Example flagged_location_not_recorded :
  last_known_location
    (exec (check_fraud Samples.planar_km Samples.night_txn Samples.forwarded)
       Samples.seeded) !! "visa" = None.
Proof. vm_compute. reflexivity. Qed.

(** C9, as stated, fails: "2025-8-7 1:5:0" is not laid out as
    YYYY-MM-DD HH:MM:SS, yet [strptime] reads it as 2025-08-07 01:05:00 and
    the call goes through. *)
Lemma lenient_timestamp_accepted :
  ~ (forall (geodesic_km : coords -> coords -> float)
            (txn : Transaction) (request : Request) (st : State),
       fixed_format (timestamp txn) = false ->
       result (check_fraud geodesic_km txn request) st = Raised ValueError
       /\ exec (check_fraud geodesic_km txn request) st = st).
Proof.
  intros Hclaim.
  destruct (Hclaim Samples.planar_km (Samples.txn_at "2025-8-7 1:5:0") Samples.direct
              Samples.seeded) as [Hraised _].
  - vm_compute. reflexivity.
  - vm_compute in Hraised. discriminate Hraised.
Qed.

Lemma rejected_timestamp_changes_nothing_witness :
  result (check_fraud Samples.planar_km (Samples.txn_at "07/08/2025 16:55") Samples.direct)
    Samples.seeded = Raised ValueError
  /\ exec (check_fraud Samples.planar_km (Samples.txn_at "07/08/2025 16:55") Samples.direct)
       Samples.seeded = Samples.seeded.
Proof.
  apply (rejected_timestamp_changes_nothing Samples.planar_km
           (Samples.txn_at "07/08/2025 16:55") Samples.direct Samples.seeded).
  vm_compute. reflexivity.
Defined.

Lemma verdict_reasons_and_record_agree_witness :
  exists resp : Response,
    result (check_fraud Samples.planar_km Samples.night_txn Samples.forwarded) Samples.seeded
    = Returned resp
    /\ (fraud resp = true <-> reasons resp <> [])
    /\ collection
         (exec (check_fraud Samples.planar_km Samples.night_txn Samples.forwarded)
            Samples.seeded) =
       (collection Samples.seeded
        ++ [stored_doc Samples.night_txn Samples.forwarded (mk_datetime 2025 8 7 2 30 0)
              (fraud resp) (reasons resp)])%list.
Proof.
  apply (verdict_reasons_and_record_agree Samples.planar_km Samples.night_txn
           Samples.forwarded Samples.seeded (mk_datetime 2025 8 7 2 30 0)).
  vm_compute. reflexivity.
Defined.

(** After the flagged night transfer, a second verdict against its sender
    adds nothing to the sender's entry. *)
Lemma one_entry_per_account_witness :
  let st := exec (check_fraud Samples.planar_km Samples.night_txn Samples.forwarded)
              Samples.seeded in
  let st1 := exec (add_if_absent "5550002222" ["Geo Drift Detected"] Samples.noon) st in
  let st2 := exec (add_if_absent "5550002222" ["Abnormal Amount (Behavioral)"] Samples.noon)
               st1 in
  unique_accounts (blacklist_collection st)
  /\ st2 = st1
  /\ length (entries_of "5550002222" (blacklist_collection st2)) = 1%nat
  /\ unique_accounts (blacklist_collection st2)
  /\ (is_blacklisted "5550002222" st = false ->
      entries_of "5550002222" (blacklist_collection st2)
      = [mk_BlacklistEntry "account" "5550002222" ["Geo Drift Detected"] Samples.noon])
  /\ (is_blacklisted "5550002222" st = true -> st2 = st).
Proof.
  apply (one_entry_per_account Samples.planar_km).
  apply reach_request. apply reach_first_start.
Defined.

(** The end-to-end case of a blacklisted address: an otherwise unremarkable
    transaction is flagged with that one reason, and both of its accounts
    are blacklisted with it. *)
Example blacklisted_ip_end_to_end :
  let request := mk_Request (Some "203.0.113.5") "10.0.0.7" in
  let txn := Samples.txn_at "2025-08-07 12:00:00" in
  let st' := exec (check_fraud Samples.planar_km txn request) Samples.seeded in
  result (check_fraud Samples.planar_km txn request) Samples.seeded
  = Returned (mk_Response true ["Blacklisted IP Address: 203.0.113.5"])
  /\ entries_of "5550001111" (blacklist_collection st')
     = [mk_BlacklistEntry "account" "5550001111" ["Blacklisted IP Address: 203.0.113.5"]
          (mk_datetime 2025 8 7 12 0 0)]
  /\ entries_of "5550002222" (blacklist_collection st')
     = [mk_BlacklistEntry "account" "5550002222" ["Blacklisted IP Address: 203.0.113.5"]
          (mk_datetime 2025 8 7 12 0 0)]
  /\ last_known_location st' = last_known_location Samples.seeded
  /\ length (collection st') = 1%nat.
Proof. vm_compute. repeat split. Qed.

(** * Further properties *)

(** ** Client addresses *)

Lemma lstrip_suffix (s : list ascii) : exists blanks, s = (blanks ++ Py.lstrip s)%list.
Proof.
  induction s as [| c s [blanks IH]].
  - exists []. reflexivity.
  - cbn [Py.lstrip]. destruct (Py.isspace c).
    + exists (c :: blanks). cbn [app]. f_equal. exact IH.
    + exists []. reflexivity.
Qed.

Lemma lstrip_head (s : list ascii) (c : ascii) (r : list ascii) :
  Py.lstrip s = c :: r -> Py.isspace c = false.
Proof.
  induction s as [| a s IH]; [discriminate |].
  cbn [Py.lstrip]. destruct (Py.isspace a) eqn:Ha; [exact IH |].
  intros [= <- _]. exact Ha.
Qed.

Lemma lstrip_In (s : list ascii) (c : ascii) : In c (Py.lstrip s) -> In c s.
Proof.
  destruct (lstrip_suffix s) as [blanks Hs]. intros Hc.
  rewrite Hs. apply in_or_app. right. exact Hc.
Qed.

Lemma rstrip_last (s r : list ascii) (c : ascii) :
  Py.rstrip s = (r ++ [c])%list -> Py.isspace c = false.
Proof.
  unfold Py.rstrip. intros Hs.
  apply (f_equal (@rev ascii)) in Hs. rewrite rev_involutive, rev_app_distr in Hs.
  cbn [rev app] in Hs. exact (lstrip_head _ _ _ Hs).
Qed.

Lemma rstrip_In (s : list ascii) (c : ascii) : In c (Py.rstrip s) -> In c s.
Proof.
  unfold Py.rstrip. intros Hc. apply in_rev in Hc. apply lstrip_In in Hc.
  apply in_rev. exact Hc.
Qed.

(** [rstrip] removes from the end only: the first character stays first. *)
Lemma rstrip_head (s : list ascii) (c : ascii) (r : list ascii) :
  Py.rstrip s = c :: r -> exists r', s = c :: r'.
Proof.
  unfold Py.rstrip. intros Hs.
  destruct (lstrip_suffix (rev s)) as [blanks Hrev].
  apply (f_equal (@rev ascii)) in Hrev. rewrite rev_involutive, rev_app_distr in Hrev.
  rewrite Hs in Hrev. cbn [app] in Hrev. eexists. exact Hrev.
Qed.

Lemma split_comma_head_no_comma (s : string) :
  ~ In ","%char (list_ascii_of_string (Py.split_comma_head s)).
Proof.
  induction s as [| c s IH]; cbn [Py.split_comma_head list_ascii_of_string].
  - intros [].
  - destruct (Ascii.eqb c ",") eqn:Hc; cbn [list_ascii_of_string In].
    + intros [].
    + intros [Heq | Hin]; [| exact (IH Hin)].
      subst c. discriminate Hc.
Qed.

(** X1. With a non-empty [x-forwarded-for] header the client address is
    made of characters of the header, contains no comma, neither begins nor
    ends with a blank, and does not depend on the peer address. *)
Theorem client_ip_shape (request : Request) (forwarded : string) :
  x_forwarded_for request = Some forwarded ->
  forwarded <> "" ->
  let ip := list_ascii_of_string (get_client_ip request) in
  ~ In ","%char ip
  /\ (forall c, In c ip -> In c (list_ascii_of_string forwarded))
  /\ (forall c rest, ip = c :: rest -> Py.isspace c = false)
  /\ (forall rest c, ip = (rest ++ [c])%list -> Py.isspace c = false)
  /\ (forall peer, get_client_ip (mk_Request (Some forwarded) peer) = get_client_ip request).
Proof.
  intros Hheader Hnonempty. unfold get_client_ip. rewrite Hheader. cbn [x_forwarded_for].
  apply String.eqb_neq in Hnonempty. rewrite Hnonempty. cbn [negb].
  unfold Py.strip. rewrite list_ascii_of_string_of_list_ascii.
  assert (Hsub : forall c,
            In c (list_ascii_of_string (Py.split_comma_head forwarded)) ->
            In c (list_ascii_of_string forwarded)).
  { clear. induction forwarded as [| a s IH]; cbn [Py.split_comma_head list_ascii_of_string].
    - intros c [].
    - destruct (Ascii.eqb a ","); cbn [list_ascii_of_string In]; intros c Hc.
      + destruct Hc.
      + destruct Hc as [Hc | Hc]; [left; exact Hc | right; exact (IH c Hc)]. }
  split; [| split; [| split; [| split]]].
  - intros Hc. apply rstrip_In, lstrip_In in Hc.
    exact (split_comma_head_no_comma forwarded Hc).
  - intros c Hc. apply rstrip_In, lstrip_In in Hc. exact (Hsub c Hc).
  - intros c rest Hip. apply rstrip_head in Hip as [tail Hip].
    exact (lstrip_head _ _ _ Hip).
  - intros rest c Hip. exact (rstrip_last _ _ _ Hip).
  - intros peer. reflexivity.
Qed.

Lemma client_ip_shape_witness :
  let ip := list_ascii_of_string (get_client_ip Samples.forwarded) in
  ~ In ","%char ip
  /\ (forall c, In c ip -> In c (list_ascii_of_string " 203.0.113.5 , 10.0.0.1"))
  /\ (forall c rest, ip = c :: rest -> Py.isspace c = false)
  /\ (forall rest c, ip = (rest ++ [c])%list -> Py.isspace c = false)
  /\ (forall peer, get_client_ip (mk_Request (Some " 203.0.113.5 , 10.0.0.1") peer)
                   = get_client_ip Samples.forwarded).
Proof.
  apply (client_ip_shape Samples.forwarded " 203.0.113.5 , 10.0.0.1").
  - reflexivity.
  - discriminate.
Defined.

(** A header whose first entry is blank gives the empty address; the peer
    address is not used as a fallback. *)
Example client_ip_blank_entry :
  get_client_ip (mk_Request (Some " , 10.0.0.1") "10.0.0.7") = "".
Proof. vm_compute. reflexivity. Qed.

(** ** The window of the anomaly detector *)

Lemma slice_from_suffix {A : Type} (w : Z) (l : list A) :
  0 < w ->
  Py.slice_from (- w) l = drop (length l - Z.to_nat w) l.
Proof.
  intros Hw. unfold Py.slice_from.
  destruct (Z.ltb_spec (- w) 0) as [_ | Hge]; [| lia].
  f_equal. lia.
Qed.

Lemma slice_from_app {A : Type} (w : Z) (older recent : list A) :
  0 < w -> (Z.to_nat w <= length recent)%nat ->
  Py.slice_from (- w) (older ++ recent) = Py.slice_from (- w) recent.
Proof.
  intros Hw Hlen. rewrite !slice_from_suffix by exact Hw.
  rewrite length_app.
  replace (length older + length recent - Z.to_nat w)%nat
    with (length older + (length recent - Z.to_nat w))%nat by lia.
  apply drop_app_add'. reflexivity.
Qed.

(** X2. For a positive window size the detector looks at the last
    [window_size] transactions only: when the recent transactions fill the
    window, whatever came before them does not change the verdict. *)
Theorem only_the_window_counts
    (older recent : list StoredTransaction) (current_amount : float)
    (window_size : Z) (z_thresh : float) :
  0 < window_size ->
  (Z.to_nat window_size <= length recent)%nat ->
  detect_behavioral_anomaly (older ++ recent) current_amount window_size z_thresh
  = detect_behavioral_anomaly recent current_amount window_size z_thresh.
Proof.
  intros Hw Hlen. unfold detect_behavioral_anomaly, amount_window.
  rewrite map_app, slice_from_app; [reflexivity | exact Hw |].
  rewrite length_map. exact Hlen.
Qed.

Lemma only_the_window_counts_witness :
  detect_behavioral_anomaly
    (Samples.history [5000; 1; 900000]%float ++ Samples.history [10; 20; 10; 20; 10]%float)
    200%float 5 2.5%float
  = detect_behavioral_anomaly (Samples.history [10; 20; 10; 20; 10]%float)
      200%float 5 2.5%float.
Proof.
  apply (only_the_window_counts (Samples.history [5000; 1; 900000]%float)
           (Samples.history [10; 20; 10; 20; 10]%float) 200%float 5 2.5%float).
  - lia.
  - vm_compute. lia.
Defined.

(** X3. Which amounts the window keeps.  For a positive window size the
    window is the end of the history, [min(window_size, len(history))]
    amounts long; for window size 0 it is the whole history
    ([amounts[-0:]] is [amounts[0:]]); for a negative window size it is the
    history without its first [-window_size] amounts. *)
Theorem window_contents (past_txns : list StoredTransaction) (window_size : Z) :
  let amounts := map doc_amount past_txns in
  let window := amount_window past_txns window_size in
  (0 < window_size ->
   (exists older : list float, amounts = (older ++ window)%list)
   /\ length window = Nat.min (Z.to_nat window_size) (length past_txns))
  /\ (window_size = 0 -> window = amounts)
  /\ (window_size < 0 -> window = drop (Z.to_nat (- window_size)) amounts).
Proof.
  cbv zeta. unfold amount_window. split; [| split].
  - intros Hw. rewrite (slice_from_suffix window_size _ Hw). split.
    + exists (take (length (map doc_amount past_txns) - Z.to_nat window_size)
                (map doc_amount past_txns)).
      symmetry. apply take_drop.
    + rewrite length_drop, length_map. lia.
  - intros ->. unfold Py.slice_from. change (- 0 <? 0) with false. cbn iota.
    rewrite Z.min_l by lia. reflexivity.
  - intros Hw. unfold Py.slice_from.
    destruct (Z.ltb_spec (- window_size) 0) as [Hneg | _]; [lia |].
    rewrite length_map.
    destruct (Z.min_spec (- window_size) (Z.of_nat (length past_txns)))
      as [[_ ->] | [Hover ->]]; [reflexivity |].
    rewrite Nat2Z.id, !drop_ge; [reflexivity | | ]; rewrite length_map; lia.
Qed.

(** The last five of seven amounts; all of them for size 0; without the
    first two for size -2. *)
Example window_contents_of_seven :
  let past_txns := Samples.history [1; 2; 3; 4; 5; 6; 7]%float in
  amount_window past_txns 5 = [3; 4; 5; 6; 7]%float
  /\ amount_window past_txns 0 = [1; 2; 3; 4; 5; 6; 7]%float
  /\ amount_window past_txns (-2) = [3; 4; 5; 6; 7]%float
  /\ amount_window past_txns 9 = [1; 2; 3; 4; 5; 6; 7]%float
  /\ amount_window past_txns (-9) = [].
Proof. vm_compute. repeat split. Qed.

(** ** Amounts that are not numbers *)

(** IEEE-754 arithmetic on NaN, from the specification of the primitive
    operations. *)
Lemma float_is_nan (x : float) : Prim2SF x = S754_nan -> x = nan.
Proof. intros Hx. apply Prim2SF_inj. rewrite Hx. reflexivity. Qed.

Lemma add_nan_l (x : float) : (nan + x)%float = nan.
Proof. apply float_is_nan. rewrite add_spec. reflexivity. Qed.

Lemma add_nan_r (x : float) : (x + nan)%float = nan.
Proof. apply float_is_nan. rewrite add_spec. destruct (Prim2SF x); reflexivity. Qed.

Lemma sub_nan_l (x : float) : (nan - x)%float = nan.
Proof. apply float_is_nan. rewrite sub_spec. reflexivity. Qed.

Lemma sub_nan_r (x : float) : (x - nan)%float = nan.
Proof. apply float_is_nan. rewrite sub_spec. destruct (Prim2SF x); reflexivity. Qed.

Lemma div_nan_l (x : float) : (nan / x)%float = nan.
Proof. apply float_is_nan. rewrite div_spec. reflexivity. Qed.

Lemma div_nan_r (x : float) : (x / nan)%float = nan.
Proof. apply float_is_nan. rewrite div_spec. destruct (Prim2SF x); reflexivity. Qed.

Lemma ltb_nan_r (x : float) : (x <? nan)%float = false.
Proof. rewrite ltb_spec. destruct (Prim2SF x); reflexivity. Qed.

Lemma sum_from_nan (a : list float) : fold_left PrimFloat.add a nan = nan.
Proof.
  induction a as [| x a IH]; [reflexivity |].
  cbn [fold_left]. rewrite add_nan_l. exact IH.
Qed.

Lemma sum_with_nan (a : list float) (acc : float) :
  In nan a -> fold_left PrimFloat.add a acc = nan.
Proof.
  revert acc. induction a as [| x a IH]; intros acc Hin; [destruct Hin |].
  cbn [fold_left]. destruct Hin as [-> | Hin].
  - rewrite add_nan_r. apply sum_from_nan.
  - apply IH. exact Hin.
Qed.

Lemma fold_nan (a : list float) (acc : float) :
  acc = nan \/ In nan a -> fold_left PrimFloat.add a acc = nan.
Proof.
  intros [-> | Hin]; [apply sum_from_nan | apply sum_with_nan; exact Hin].
Qed.

Lemma tree_nan (r0 r1 r2 r3 r4 r5 r6 r7 : float) :
  In nan [r0; r1; r2; r3; r4; r5; r6; r7] ->
  (((r0 + r1) + (r2 + r3)) + ((r4 + r5) + (r6 + r7)))%float = nan.
Proof.
  cbn [In].
  intros [-> | [-> | [-> | [-> | [-> | [-> | [-> | [-> | []]]]]]]]];
    repeat (rewrite add_nan_l || rewrite add_nan_r); reflexivity.
Qed.

Lemma lanes_nan (r0 r1 r2 r3 r4 r5 r6 r7 a0 a1 a2 a3 a4 a5 a6 a7 : float) :
  In nan [r0; r1; r2; r3; r4; r5; r6; r7] \/ In nan [a0; a1; a2; a3; a4; a5; a6; a7] ->
  In nan [r0 + a0; r1 + a1; r2 + a2; r3 + a3; r4 + a4; r5 + a5; r6 + a6; r7 + a7]%float.
Proof.
  cbn [In].
  intros [[-> | [-> | [-> | [-> | [-> | [-> | [-> | [-> | []]]]]]]]]
         | [-> | [-> | [-> | [-> | [-> | [-> | [-> | [-> | []]]]]]]]]];
    repeat (rewrite add_nan_l || rewrite add_nan_r); tauto.
Qed.

Lemma unrolled_nan (n : nat) :
  forall (a : list float) (r0 r1 r2 r3 r4 r5 r6 r7 : float),
    (length a <= n)%nat ->
    In nan [r0; r1; r2; r3; r4; r5; r6; r7] \/ In nan a ->
    Np.unrolled r0 r1 r2 r3 r4 r5 r6 r7 a = nan.
Proof.
  induction n as [| n IH]; intros a r0 r1 r2 r3 r4 r5 r6 r7 Hlen Hnan.
  - destruct a; [| cbn in Hlen; lia]. cbn [Np.unrolled fold_left].
    destruct Hnan as [Hr | []]. exact (tree_nan _ _ _ _ _ _ _ _ Hr).
  - destruct a as [| a0 [| a1 [| a2 [| a3 [| a4 [| a5 [| a6 [| a7 a']]]]]]]];
      cbn [Np.unrolled];
      try (apply fold_nan;
           destruct Hnan as [Hr | Ha]; [left; exact (tree_nan _ _ _ _ _ _ _ _ Hr) | right; exact Ha]).
    apply IH; [cbn [length] in Hlen; lia |].
    destruct Hnan as [Hr | Ha].
    + left. apply lanes_nan. left. exact Hr.
    + change (a0 :: a1 :: a2 :: a3 :: a4 :: a5 :: a6 :: a7 :: a')
        with ([a0; a1; a2; a3; a4; a5; a6; a7] ++ a')%list in Ha.
      apply in_app_or in Ha as [Ha | Ha].
      * left. apply lanes_nan. right. exact Ha.
      * right. exact Ha.
Qed.

Lemma one_by_one_nan (a : list float) : In nan a -> Np.one_by_one a = nan.
Proof. intros Hin. apply fold_nan. right. exact Hin. Qed.

Lemma block_nan (a : list float) : In nan a -> Np.block a = nan.
Proof.
  intros Hin. unfold Np.block.
  destruct a as [| a0 [| a1 [| a2 [| a3 [| a4 [| a5 [| a6 [| a7 a']]]]]]]];
    try exact (one_by_one_nan _ Hin).
  apply (unrolled_nan (length a')); [lia |].
  change (a0 :: a1 :: a2 :: a3 :: a4 :: a5 :: a6 :: a7 :: a')
    with ([a0; a1; a2; a3; a4; a5; a6; a7] ++ a')%list in Hin.
  apply in_app_or in Hin. exact Hin.
Qed.

Lemma pairwise_sum_nan (fuel : nat) (a : list float) :
  In nan a -> Np.pairwise_sum fuel a = nan.
Proof.
  revert a. induction fuel as [| fuel IH]; intros a Hin; cbn [Np.pairwise_sum].
  - destruct (length a <? 8)%nat; [exact (one_by_one_nan a Hin) |].
    destruct (length a <=? 128)%nat; exact (block_nan a Hin).
  - destruct (length a <? 8)%nat; [exact (one_by_one_nan a Hin) |].
    destruct (length a <=? 128)%nat; [exact (block_nan a Hin) |].
    set (n2 := (length a / 2 - (length a / 2) mod 8)%nat).
    rewrite <- (take_drop n2 a) in Hin. apply in_app_or in Hin as [Hin | Hin].
    + rewrite (IH _ Hin). apply add_nan_l.
    + rewrite (IH _ Hin). apply add_nan_r.
Qed.

Lemma np_sum_nan (a : list float) : In nan a -> Np.sum a = nan.
Proof.
  intros Hin. unfold Np.sum. rewrite (pairwise_sum_nan _ a Hin). apply add_nan_r.
Qed.

Lemma mean_with_nan (a : list float) : In nan a -> Np.mean a = nan.
Proof.
  intros Hin. unfold Np.mean. rewrite (np_sum_nan a Hin). apply div_nan_l.
Qed.

Lemma std_with_nan (a : list float) : In nan a -> Np.std a = nan.
Proof.
  intros Hin. unfold Np.std, Np.var. rewrite (mean_with_nan a Hin).
  assert (Hsq : In nan (map (fun d => (d * d)%float) (map (fun v => (v - nan)%float) a))).
  { apply in_map_iff. exists nan. split; [reflexivity |].
    apply in_map_iff. exists nan. split; [reflexivity | exact Hin]. }
  rewrite (np_sum_nan _ Hsq). rewrite div_nan_l. reflexivity.
Qed.

(** X4. One NaN among the amounts of the window switches the detector
    off: no current amount is flagged, for any threshold. *)
Theorem nan_in_window_never_flags
    (past_txns : list StoredTransaction) (current_amount : float)
    (window_size : Z) (z_thresh : float) :
  In nan (amount_window past_txns window_size) ->
  detect_behavioral_anomaly past_txns current_amount window_size z_thresh = false.
Proof.
  intros Hin. unfold detect_behavioral_anomaly.
  destruct (length (amount_window past_txns window_size) <? 2)%nat; [reflexivity |].
  unfold z_score. rewrite (std_with_nan _ Hin).
  change (negb (nan =? 0)%float) with true. cbn iota.
  rewrite div_nan_r. apply ltb_nan_r.
Qed.

Lemma nan_in_window_never_flags_witness :
  In nan (amount_window (Samples.history [10; nan; 10; 20; 10]%float) 5)
  /\ detect_behavioral_anomaly (Samples.history [10; nan; 10; 20; 10]%float)
       1000000%float 5 2.5%float = false.
Proof.
  assert (Hin : In nan (amount_window (Samples.history [10; nan; 10; 20; 10]%float) 5)).
  { right. left. reflexivity. }
  split; [exact Hin |].
  exact (nan_in_window_never_flags (Samples.history [10; nan; 10; 20; 10]%float)
           1000000%float 5 2.5%float Hin).
Defined.

(** X5. A current amount that is NaN is never flagged, whatever the
    history, for every threshold that is not negative. *)
Theorem nan_amount_never_flags
    (past_txns : list StoredTransaction) (window_size : Z) (z_thresh : float) :
  (z_thresh <? 0)%float = false ->
  detect_behavioral_anomaly past_txns nan window_size z_thresh = false.
Proof.
  intros Hthresh. unfold detect_behavioral_anomaly.
  destruct (length (amount_window past_txns window_size) <? 2)%nat; [reflexivity |].
  unfold z_score.
  destruct (Np.std (amount_window past_txns window_size) =? 0)%float; cbn [negb].
  - exact Hthresh.
  - rewrite sub_nan_l, div_nan_l. apply ltb_nan_r.
Qed.

Lemma nan_amount_never_flags_witness :
  detect_behavioral_anomaly (Samples.history [10; 20; 10; 20; 10]%float) nan 5 2.5%float
  = false.
Proof.
  apply (nan_amount_never_flags (Samples.history [10; 20; 10; 20; 10]%float) 5 2.5%float).
  vm_compute. reflexivity.
Defined.

(** X6. The z-score is never below zero: it is zero, positive or NaN,
    for every window and every current amount. *)
Theorem z_score_not_negative (amounts : list float) (current_amount : float) :
  (z_score amounts current_amount <? 0)%float = false.
Proof.
  unfold z_score. destruct (negb (Np.std amounts =? 0)%float); [| reflexivity].
  rewrite ltb_spec, abs_spec.
  destruct (Prim2SF ((current_amount - Np.mean amounts) / Np.std amounts)%float);
    reflexivity.
Qed.

(** ** When the geo detector fires *)

Lemma known_places (name : string) (c : coords) :
  location_lookup !! name = Some c ->
  In name ["Chennai"; "Mumbai"; "Delhi"; "Bangalore"].
Proof.
  unfold location_lookup. intros Hlook.
  apply elem_of_list_to_map_2 in Hlook.
  apply list_elem_of_In in Hlook. cbn [In] in Hlook |- *.
  destruct Hlook as [H | [H | [H | [H | []]]]]; injection H as <- _; tauto.
Qed.

(** X7. Drift is reported exactly when the card has a last known location,
    that location and the current one are both among the four places of
    [location_lookup] (names compared as written, case included), and the
    distance between the two exceeds [max_km]. *)
Theorem drift_exactly_when
    (geodesic_km : coords -> coords -> float)
    (lkl : gmap string string) (card current_location : string) (max_km : float) :
  detect_geo_drift geodesic_km lkl card current_location max_km = true
  <-> exists (last_location : string) (last_coords current_coords : coords),
        lkl !! card = Some last_location
        /\ In last_location ["Chennai"; "Mumbai"; "Delhi"; "Bangalore"]
        /\ In current_location ["Chennai"; "Mumbai"; "Delhi"; "Bangalore"]
        /\ location_lookup !! last_location = Some last_coords
        /\ location_lookup !! current_location = Some current_coords
        /\ (max_km <? geodesic_km last_coords current_coords)%float = true.
Proof.
  unfold detect_geo_drift. split.
  - destruct (location_lookup !! current_location) as [cc |] eqn:Hcur; [| discriminate].
    destruct (lkl !! card) as [last |]; [| discriminate].
    destruct (String.eqb last ""); [discriminate |].
    destruct (location_lookup !! last) as [lc |] eqn:Hlast; [| discriminate].
    intros Hfar. exists last, lc, cc.
    repeat split; try assumption; eapply known_places; eassumption.
  - intros (last & lc & cc & Hlkl & Hknown & _ & Hlast & Hcur & Hfar).
    rewrite Hcur, Hlkl.
    destruct (String.eqb_spec last "") as [-> | _].
    + cbn [In] in Hknown. destruct Hknown as [H | [H | [H | [H | []]]]]; discriminate H.
    + rewrite Hlast. exact Hfar.
Qed.

(** Place names are compared as written. *)
Example lower_case_place_unknown :
  detect_geo_drift Samples.planar_km {[ "visa" := "Delhi" ]} "visa" "chennai" 500%float
  = false.
Proof. vm_compute. reflexivity. Qed.

(** ** The reasons of a verdict *)

Lemma fired_sublist (cs : list (bool * string)) (r : string) :
  In r (map snd (List.filter fst cs)) -> In r (map snd cs).
Proof.
  intros Hin. apply fired_In in Hin. apply in_map_iff. exists (true, r). split; [reflexivity | exact Hin].
Qed.

Lemma fired_NoDup (cs : list (bool * string)) :
  List.NoDup (map snd cs) -> List.NoDup (map snd (List.filter fst cs)).
Proof.
  induction cs as [| [c r] cs IH]; intros Hnd; [exact Hnd |].
  cbn [map snd] in Hnd. apply List.NoDup_cons_iff in Hnd as [Hfresh Hnd].
  cbn [List.filter fst]. destruct c; [| exact (IH Hnd)].
  cbn [map snd]. apply List.NoDup_cons_iff. split; [| exact (IH Hnd)].
  intros Hin. apply Hfresh. exact (fired_sublist cs r Hin).
Qed.

Lemma fired_length (cs : list (bool * string)) :
  (length (map snd (List.filter fst cs)) <= length cs)%nat.
Proof. rewrite length_map. apply List.filter_length_le. Qed.

Lemma fired_own (cs : list (bool * string)) (c : bool) (r : string) :
  List.NoDup (map snd cs) -> In (c, r) cs ->
  (In r (map snd (List.filter fst cs)) <-> c = true).
Proof.
  intros Hnd Hin. rewrite fired_In. split; [| intros ->; exact Hin].
  intros Htrue. clear -Hnd Hin Htrue.
  induction cs as [| [c' r'] cs IH]; [destruct Hin |].
  cbn [map snd] in Hnd. apply List.NoDup_cons_iff in Hnd as [Hfresh Hnd].
  destruct Hin as [Hin | Hin], Htrue as [Htrue | Htrue].
  - congruence.
  - exfalso. apply Hfresh. injection Hin as _ ->.
    apply in_map_iff. exists (true, r). split; [reflexivity | exact Htrue].
  - exfalso. apply Hfresh. injection Htrue as _ ->.
    apply in_map_iff. exists (c, r). split; [reflexivity | exact Hin].
  - exact (IH Hnd Hin Htrue).
Qed.

(** The six reason texts are different texts, whatever the address and the
    account numbers are. *)
Lemma reason_texts_distinct (ip recipient sender : string) :
  List.NoDup
    [ "Blacklisted IP Address: " +:+ ip;
      "Blacklisted Recipient Account: " +:+ recipient;
      "Blacklisted Sender Account: " +:+ sender;
      "Transaction During Odd Hours (12 AM - 4 AM)";
      "Abnormal Amount (Behavioral)";
      "Geo Drift Detected" ].
Proof.
  cbn [String.append].
  repeat (apply List.NoDup_cons; [cbn [In]; intros Hin | ]); [.. | apply List.NoDup_nil];
    repeat (destruct Hin as [Hin | Hin]; [discriminate Hin |]); destruct Hin.
Qed.

Section FurtherEngineProperties.

Variable geodesic_km : coords -> coords -> float.

Lemma checks_texts_distinct
    (txn : Transaction) (request : Request) (now : datetime) (st : State) :
  List.NoDup (map snd (checks geodesic_km txn request now st)).
Proof. apply reason_texts_distinct. Qed.

(** The response of a call whose timestamp parses. *)
Lemma check_fraud_result
    (txn : Transaction) (request : Request) (st : State) (now : datetime) :
  Strptime.strptime (timestamp txn) = Some now ->
  result (check_fraud geodesic_km txn request) st
  = Returned (mk_Response
                (existsb fst (checks geodesic_km txn request now st))
                (map snd (List.filter fst (checks geodesic_km txn request now st)))).
Proof.
  intros Hparse. unfold result.
  rewrite (check_fraud_run geodesic_km txn request st now Hparse). reflexivity.
Qed.

(** A reason is returned exactly when the check it belongs to fired. *)
Lemma check_reason_fired
    (txn : Transaction) (request : Request) (st : State) (now : datetime)
    (c : bool) (r : string) :
  In (c, r) (checks geodesic_km txn request now st) ->
  (In r (map snd (List.filter fst (checks geodesic_km txn request now st))) <-> c = true).
Proof. apply fired_own. apply checks_texts_distinct. Qed.

(** X8. The reasons of a verdict are at most six, no reason occurs twice,
    and each of the texts is in the list exactly when its own check fired
    on the state before the call. *)
Theorem reasons_name_their_checks
    (txn : Transaction) (request : Request) (st : State) (now : datetime) :
  Strptime.strptime (timestamp txn) = Some now ->
  exists resp : Response,
    result (check_fraud geodesic_km txn request) st = Returned resp
    /\ List.NoDup (reasons resp)
    /\ (length (reasons resp) <= 6)%nat
    /\ (In ("Blacklisted IP Address: " +:+ get_client_ip request) (reasons resp)
        <-> get_client_ip request ∈ BLACKLISTED_IPS)
    /\ (In ("Blacklisted Recipient Account: " +:+ recipient_account_number txn) (reasons resp)
        <-> is_blacklisted (recipient_account_number txn) st = true)
    /\ (In ("Blacklisted Sender Account: " +:+ sender_account_number txn) (reasons resp)
        <-> is_blacklisted (sender_account_number txn) st = true)
    /\ (In "Abnormal Amount (Behavioral)" (reasons resp)
        <-> detect_behavioral_anomaly (card_history (card_type txn) st) (amount txn)
              5 2.5%float = true)
    /\ (In "Geo Drift Detected" (reasons resp)
        <-> detect_geo_drift geodesic_km (last_known_location st) (card_type txn)
              (location txn) 500%float = true).
Proof.
  intros Hparse. eexists. split.
  { unfold result. rewrite (check_fraud_run geodesic_km txn request st now Hparse). reflexivity. }
  cbn [reasons].
  pose proof (checks_texts_distinct txn request now st) as Hnd.
  split; [exact (fired_NoDup _ Hnd) |].
  split; [exact (fired_length (checks geodesic_km txn request now st)) |].
  split; [| split; [| split; [| split]]].
  - rewrite (fired_own _ (bool_decide (get_client_ip request ∈ BLACKLISTED_IPS)) _ Hnd).
    + apply bool_decide_eq_true.
    + left. reflexivity.
  - apply (fired_own _ _ _ Hnd). right. left. reflexivity.
  - apply (fired_own _ _ _ Hnd). do 2 right. left. reflexivity.
  - apply (fired_own _ _ _ Hnd). do 4 right. left. reflexivity.
  - apply (fired_own _ _ _ Hnd). do 5 right. left. reflexivity.
Qed.

(** ** How the blacklist grows *)

Lemma add_if_absent_blacklist
    (value : string) (reason : list string) (ts : datetime) (st : State) :
  blacklist_collection (exec (add_if_absent value reason ts) st)
  = (blacklist_collection st
     ++ (if is_blacklisted value st then []
         else [mk_BlacklistEntry "account" value reason ts]))%list.
Proof.
  unfold exec. rewrite add_if_absent_run. cbn [snd].
  destruct (is_blacklisted value st); [rewrite app_nil_r |]; reflexivity.
Qed.

(** Entries of other accounts do not count for an account. *)
Lemma entries_of_app (value : string) (store added : list BlacklistEntry) :
  entries_of value (store ++ added) = (entries_of value store ++ entries_of value added)%list.
Proof. apply List.filter_app. Qed.

Lemma is_blacklisted_same_store (value : string) (st st' : State) :
  blacklist_collection st' = blacklist_collection st ->
  is_blacklisted value st' = is_blacklisted value st.
Proof. unfold is_blacklisted. intros ->. reflexivity. Qed.

Lemma is_blacklisted_entries (value : string) (st : State) :
  is_blacklisted value st = false -> entries_of value (blacklist_collection st) = [].
Proof.
  intros Hb. apply no_entry_filter_nil. exact (is_blacklisted_false value st Hb).
Qed.

(** What a call does to the blacklist store. *)
Lemma check_fraud_blacklist (txn : Transaction) (request : Request) (st : State) :
  exists added : list BlacklistEntry,
    blacklist_collection (exec (check_fraud geodesic_km txn request) st)
    = (blacklist_collection st ++ added)%list
    /\ (length added <= 2)%nat
    /\ (forall e, In e added ->
          is_blacklisted (bl_value e) st = false
          /\ (bl_value e = recipient_account_number txn
              \/ bl_value e = sender_account_number txn)
          /\ exists now resp,
               Strptime.strptime (timestamp txn) = Some now
               /\ result (check_fraud geodesic_km txn request) st = Returned resp
               /\ fraud resp = true
               /\ e = mk_BlacklistEntry "account" (bl_value e) (reasons resp) now).
Proof.
  unfold exec, result.
  destruct (Strptime.strptime (timestamp txn)) as [now |] eqn:Hparse.
  2:{ rewrite (check_fraud_unparsed geodesic_km txn request st Hparse).
      exists []. rewrite app_nil_r. split; [reflexivity |]. split; [cbn; lia |].
      intros e []. }
  rewrite (check_fraud_run geodesic_km txn request st now Hparse). cbn [fst snd].
  set (cs := checks geodesic_km txn request now st).
  destruct (existsb fst cs) eqn:Hfraud.
  2:{ exists []. rewrite app_nil_r. split; [reflexivity |]. split; [cbn; lia |].
      intros e []. }
  set (rs := map snd (List.filter fst cs)).
  set (st0 := mk_State _ _ _).
  unfold exec. cbn [for_each]. unfold mbind, M_bind, mret, M_ret.
  rewrite !add_if_absent_run. cbn [snd].
  assert (Hrec : is_blacklisted (recipient_account_number txn) st0
                 = is_blacklisted (recipient_account_number txn) st) by reflexivity.
  rewrite Hrec.
  destruct (is_blacklisted (recipient_account_number txn) st) eqn:Hr.
  - assert (Hsend : is_blacklisted (sender_account_number txn) st0
                    = is_blacklisted (sender_account_number txn) st) by reflexivity.
    rewrite Hsend.
    destruct (is_blacklisted (sender_account_number txn) st) eqn:Hs.
    + exists []. rewrite app_nil_r. split; [reflexivity |]. split; [cbn; lia |]. intros e [].
    + exists [mk_BlacklistEntry "account" (sender_account_number txn) rs now].
      split; [reflexivity |]. split; [cbn; lia |].
      intros e [<- | []]. cbn [bl_value]. split; [exact Hs |]. split; [right; reflexivity |].
      exists now, (mk_Response true rs). repeat split.
  - set (st1 := mk_State _ (_ ++ _) _).
    destruct (is_blacklisted (sender_account_number txn) st1) eqn:Hs1.
    + exists [mk_BlacklistEntry "account" (recipient_account_number txn) rs now].
      split; [reflexivity |]. split; [cbn; lia |].
      intros e [<- | []]. cbn [bl_value]. split; [exact Hr |]. split; [left; reflexivity |].
      exists now, (mk_Response true rs). repeat split.
    + exists [mk_BlacklistEntry "account" (recipient_account_number txn) rs now;
              mk_BlacklistEntry "account" (sender_account_number txn) rs now].
      split; [subst st1; cbn [blacklist_collection]; rewrite <- app_assoc; reflexivity |].
      split; [cbn; lia |].
      assert (Hs : is_blacklisted (sender_account_number txn) st = false).
      { destruct (is_blacklisted (sender_account_number txn) st) eqn:Hs; [| reflexivity].
        rewrite <- Hs1. symmetry.
        unfold is_blacklisted in *. subst st1. cbn [blacklist_collection].
        rewrite bool_decide_eq_true in Hs. destruct Hs as [e Hfind].
        apply bool_decide_eq_true. exists e. apply find_app_some. exact Hfind. }
      intros e [<- | [<- | []]]; cbn [bl_value].
      * split; [exact Hr |]. split; [left; reflexivity |].
        exists now, (mk_Response true rs). repeat split.
      * split; [exact Hs |]. split; [right; reflexivity |].
        exists now, (mk_Response true rs). repeat split.
Qed.

Lemma add_two_exec (a b : string) (reason : list string) (ts : datetime) (st : State) :
  exec (for_each [a; b] (fun account => add_if_absent account reason ts)) st
  = exec (add_if_absent b reason ts) (exec (add_if_absent a reason ts) st).
Proof.
  unfold exec. cbn [for_each]. unfold mbind, M_bind, mret, M_ret.
  rewrite !add_if_absent_run. reflexivity.
Qed.

(** The final state of a call whose timestamp parses. *)
Lemma check_fraud_exec
    (txn : Transaction) (request : Request) (st : State) (now : datetime) :
  Strptime.strptime (timestamp txn) = Some now ->
  exec (check_fraud geodesic_km txn request) st =
  exec (if existsb fst (checks geodesic_km txn request now st)
        then for_each [recipient_account_number txn; sender_account_number txn]
               (fun account =>
                  add_if_absent account
                    (map snd (List.filter fst (checks geodesic_km txn request now st))) now)
        else mret tt)
       (mk_State
          (collection st
           ++ [stored_doc txn request now
                 (existsb fst (checks geodesic_km txn request now st))
                 (map snd (List.filter fst (checks geodesic_km txn request now st)))])
          (blacklist_collection st)
          (if existsb fst (checks geodesic_km txn request now st)
           then last_known_location st
           else <[card_type txn := location txn]> (last_known_location st))).
Proof.
  intros Hparse. unfold exec at 1.
  rewrite (check_fraud_run geodesic_km txn request st now Hparse). reflexivity.
Qed.

(** What a returned response is. *)
Lemma returned_response
    (txn : Transaction) (request : Request) (st : State) (resp : Response) :
  result (check_fraud geodesic_km txn request) st = Returned resp ->
  exists now : datetime,
    Strptime.strptime (timestamp txn) = Some now
    /\ resp = mk_Response
               (existsb fst (checks geodesic_km txn request now st))
               (map snd (List.filter fst (checks geodesic_km txn request now st))).
Proof.
  unfold result. intros Hres.
  destruct (Strptime.strptime (timestamp txn)) as [now |] eqn:Hparse.
  - rewrite (check_fraud_run geodesic_km txn request st now Hparse) in Hres.
    injection Hres as <-. exists now. split; reflexivity.
  - rewrite (check_fraud_unparsed geodesic_km txn request st Hparse) in Hres.
    discriminate Hres.
Qed.

(** X9. Whatever the call, the blacklist store afterwards is the store of
    before with at most two entries added at its end.  An added entry is of
    type "account", for the recipient or the sender of the call, for an
    account that had no entry, and carries at least one reason.  The
    entries of an account that was listed stay as they were. *)
Theorem blacklist_only_grows (txn : Transaction) (request : Request) (st : State) :
  exists added : list BlacklistEntry,
    blacklist_collection (exec (check_fraud geodesic_km txn request) st)
    = (blacklist_collection st ++ added)%list
    /\ (length added <= 2)%nat
    /\ (forall e, In e added ->
          bl_type e = "account"
          /\ bl_reason e <> []
          /\ (bl_value e = recipient_account_number txn
              \/ bl_value e = sender_account_number txn)
          /\ is_blacklisted (bl_value e) st = false)
    /\ (forall value, is_blacklisted value st = true ->
          entries_of value
            (blacklist_collection (exec (check_fraud geodesic_km txn request) st))
          = entries_of value (blacklist_collection st)).
Proof.
  destruct (check_fraud_blacklist txn request st) as (added & Hgrow & Hlen & Hadded).
  exists added. split; [exact Hgrow |]. split; [exact Hlen |]. split.
  - intros e He.
    destruct (Hadded e He) as (Hnew & Hwho & now & resp & Hparse & Hres & Hfraud & Heq).
    split; [rewrite Heq; reflexivity |]. split; [| split; assumption].
    rewrite Heq. change (reasons resp <> []).
    destruct (returned_response txn request st resp Hres) as (now' & _ & ->).
    exact (proj1 (fired_nonempty _) Hfraud).
  - intros value Hlisted. rewrite Hgrow, entries_of_app.
    rewrite <- (app_nil_r (entries_of value (blacklist_collection st))) at 2. f_equal.
    apply no_entry_filter_nil. intros e He.
    destruct (Hadded e He) as (Hnew & _).
    destruct (is_account_entry value e) eqn:Hm; [| reflexivity].
    apply is_account_entry_spec in Hm as [_ <-]. congruence.
Qed.

Lemma check_fraud_keeps (txn : Transaction) (request : Request) (st : State) (value : string) :
  is_blacklisted value st = true ->
  is_blacklisted value (exec (check_fraud geodesic_km txn request) st) = true.
Proof.
  intros Hlisted.
  destruct (check_fraud_blacklist txn request st) as (added & Hgrow & _).
  unfold is_blacklisted in *. rewrite Hgrow.
  rewrite bool_decide_eq_true in Hlisted. destruct Hlisted as [e Hfind].
  apply bool_decide_eq_true. exists e. apply find_app_some. exact Hfind.
Qed.

Lemma after_calls_keeps (calls : list (Transaction * Request)) (st : State) (value : string) :
  is_blacklisted value st = true ->
  is_blacklisted value (after_calls geodesic_km calls st) = true.
Proof.
  revert st. induction calls as [| call calls IH]; intros st Hlisted; [exact Hlisted |].
  cbn [after_calls fold_left]. apply IH. apply check_fraud_keeps. exact Hlisted.
Qed.

(** A listed account makes the verdict fraud. *)
Lemma listed_account_flags
    (txn : Transaction) (request : Request) (st : State) (now : datetime) :
  Strptime.strptime (timestamp txn) = Some now ->
  is_blacklisted (recipient_account_number txn) st = true
  \/ is_blacklisted (sender_account_number txn) st = true ->
  result (check_fraud geodesic_km txn request) st
  = Returned (mk_Response true
                (map snd (List.filter fst (checks geodesic_km txn request now st)))).
Proof.
  intros Hparse Hlisted. unfold result.
  rewrite (check_fraud_run geodesic_km txn request st now Hparse). cbn [fst].
  do 2 f_equal. unfold checks. cbn [existsb fst].
  destruct Hlisted as [-> | ->]; rewrite ?orb_true_r; reflexivity.
Qed.

(** A fraud verdict lists both accounts of the transaction. *)
Lemma fraud_lists_both
    (txn : Transaction) (request : Request) (st : State) (resp : Response) :
  result (check_fraud geodesic_km txn request) st = Returned resp ->
  fraud resp = true ->
  is_blacklisted (recipient_account_number txn)
    (exec (check_fraud geodesic_km txn request) st) = true
  /\ is_blacklisted (sender_account_number txn)
       (exec (check_fraud geodesic_km txn request) st) = true.
Proof.
  intros Hres Hfraud.
  destruct (returned_response txn request st resp Hres) as (now & Hparse & ->).
  change (existsb fst (checks geodesic_km txn request now st) = true) in Hfraud.
  rewrite (check_fraud_exec txn request st now Hparse), Hfraud, add_two_exec.
  split.
  - apply add_if_absent_keeps. apply add_if_absent_lists.
  - apply add_if_absent_lists.
Qed.

(** X10. A fraud verdict lists both accounts of the transaction in the
    blacklist; a non-fraud verdict leaves the blacklist store as it was. *)
Theorem verdict_and_blacklist
    (txn : Transaction) (request : Request) (st : State) (now : datetime) :
  Strptime.strptime (timestamp txn) = Some now ->
  exists resp : Response,
    result (check_fraud geodesic_km txn request) st = Returned resp
    /\ (fraud resp = true ->
        is_blacklisted (recipient_account_number txn)
          (exec (check_fraud geodesic_km txn request) st) = true
        /\ is_blacklisted (sender_account_number txn)
             (exec (check_fraud geodesic_km txn request) st) = true)
    /\ (fraud resp = false ->
        blacklist_collection (exec (check_fraud geodesic_km txn request) st)
        = blacklist_collection st).
Proof.
  intros Hparse.
  exists (mk_Response
            (existsb fst (checks geodesic_km txn request now st))
            (map snd (List.filter fst (checks geodesic_km txn request now st)))).
  assert (Hres : result (check_fraud geodesic_km txn request) st
                 = Returned
                     (mk_Response
                        (existsb fst (checks geodesic_km txn request now st))
                        (map snd (List.filter fst (checks geodesic_km txn request now st))))).
  { unfold result. rewrite (check_fraud_run geodesic_km txn request st now Hparse).
    reflexivity. }
  split; [exact Hres |]. split.
  - intros Hfraud. exact (fraud_lists_both txn request st _ Hres Hfraud).
  - intros Hclean.
    change (existsb fst (checks geodesic_km txn request now st) = false) in Hclean.
    rewrite (check_fraud_exec txn request st now Hparse), Hclean. reflexivity.
Qed.

(** X11. Fraud spreads through accounts: after a fraud verdict, however
    many calls follow, every transaction with a readable timestamp that
    names the recipient or the sender of the flagged one, as its recipient
    or as its sender, is flagged too. *)
Theorem fraud_spreads_through_accounts
    (txn1 : Transaction) (request1 : Request) (st : State) (resp1 : Response)
    (calls : list (Transaction * Request))
    (txn2 : Transaction) (request2 : Request) (now2 : datetime) :
  result (check_fraud geodesic_km txn1 request1) st = Returned resp1 ->
  fraud resp1 = true ->
  Strptime.strptime (timestamp txn2) = Some now2 ->
  In (recipient_account_number txn2)
     [recipient_account_number txn1; sender_account_number txn1]
  \/ In (sender_account_number txn2)
        [recipient_account_number txn1; sender_account_number txn1] ->
  exists resp2 : Response,
    result (check_fraud geodesic_km txn2 request2)
      (after_calls geodesic_km calls (exec (check_fraud geodesic_km txn1 request1) st))
    = Returned resp2
    /\ fraud resp2 = true.
Proof.
  intros Hres1 Hfraud1 Hparse2 Hnames.
  destruct (fraud_lists_both txn1 request1 st resp1 Hres1 Hfraud1) as [Hrec Hsend].
  set (st1 := exec (check_fraud geodesic_km txn1 request1) st) in *.
  eexists. split.
  - apply (listed_account_flags txn2 request2 _ now2 Hparse2).
    cbn [In] in Hnames.
    destruct Hnames as [[<- | [<- | []]] | [<- | [<- | []]]];
      [left | left | right | right]; apply after_calls_keeps; assumption.
  - reflexivity.
Qed.

(** ** Starts *)

Lemma startup_exec (datetime_now : string -> datetime) (st : State) :
  exec (startup datetime_now) st =
  exec (add_if_absent "1111222233" ["Predefined blacklist"] (datetime_now "1111222233"))
    (exec (add_if_absent "9876543210" ["Predefined blacklist"] (datetime_now "9876543210"))
       st).
Proof.
  unfold startup, startup_blacklisted_accounts, exec.
  cbn [for_each]. unfold mbind, M_bind, mret, M_ret.
  rewrite !add_if_absent_run. reflexivity.
Qed.

Lemma add_if_absent_frame (value : string) (reason : list string) (ts : datetime) (st : State) :
  collection (exec (add_if_absent value reason ts) st) = collection st
  /\ last_known_location (exec (add_if_absent value reason ts) st) = last_known_location st.
Proof.
  unfold exec. rewrite add_if_absent_run. cbn [snd].
  destruct (is_blacklisted value st); split; reflexivity.
Qed.

Lemma startup_frame (datetime_now : string -> datetime) (st : State) :
  collection (exec (startup datetime_now) st) = collection st
  /\ last_known_location (exec (startup datetime_now) st) = last_known_location st.
Proof.
  rewrite startup_exec.
  destruct (add_if_absent_frame "9876543210" ["Predefined blacklist"]
              (datetime_now "9876543210") st) as [Hc1 Hl1].
  destruct (add_if_absent_frame "1111222233" ["Predefined blacklist"]
              (datetime_now "1111222233")
              (exec (add_if_absent "9876543210" ["Predefined blacklist"]
                       (datetime_now "9876543210")) st)) as [Hc2 Hl2].
  split; congruence.
Qed.

(** X12. A start, on any stores and with any clock, leaves the history and
    the last known locations alone, lists both predefined accounts, and adds
    at most two entries at the end of the blacklist store: each for a
    predefined account that had no entry, with the one reason
    "Predefined blacklist". *)
Theorem startup_seeds (datetime_now : string -> datetime) (st : State) :
  collection (exec (startup datetime_now) st) = collection st
  /\ last_known_location (exec (startup datetime_now) st) = last_known_location st
  /\ (forall acc, In acc startup_blacklisted_accounts ->
        is_blacklisted acc (exec (startup datetime_now) st) = true)
  /\ exists added : list BlacklistEntry,
       blacklist_collection (exec (startup datetime_now) st)
       = (blacklist_collection st ++ added)%list
       /\ (length added <= 2)%nat
       /\ forall e, In e added ->
            e = mk_BlacklistEntry "account" (bl_value e) ["Predefined blacklist"]
                  (datetime_now (bl_value e))
            /\ In (bl_value e) startup_blacklisted_accounts
            /\ is_blacklisted (bl_value e) st = false.
Proof.
  rewrite startup_exec.
  set (st1 := exec (add_if_absent "9876543210" _ _) st).
  destruct (add_if_absent_frame "9876543210" ["Predefined blacklist"]
              (datetime_now "9876543210") st) as [Hc1 Hl1].
  destruct (add_if_absent_frame "1111222233" ["Predefined blacklist"]
              (datetime_now "1111222233") st1) as [Hc2 Hl2].
  fold st1 in Hc1, Hl1.
  split; [congruence |]. split; [congruence |]. split.
  - intros acc [<- | [<- | []]].
    + apply add_if_absent_keeps. apply add_if_absent_lists.
    + apply add_if_absent_lists.
  - rewrite add_if_absent_blacklist. subst st1. rewrite add_if_absent_blacklist.
    rewrite <- app_assoc. eexists. split; [reflexivity |].
    set (st1 := exec (add_if_absent "9876543210" _ _) st).
    assert (Hsecond : is_blacklisted "1111222233" st1 = false ->
                      is_blacklisted "1111222233" st = false).
    { intros Hno. destruct (is_blacklisted "1111222233" st) eqn:Hyes; [| reflexivity].
      rewrite <- Hno. symmetry. apply add_if_absent_keeps. exact Hyes. }
    destruct (is_blacklisted "9876543210" st) eqn:H1,
             (is_blacklisted "1111222233" st1) eqn:H2; cbn [app length In].
    + split; [lia |]. intros e [].
    + split; [lia |]. intros e [<- | []]. cbn [bl_value].
      split; [reflexivity |]. split; [right; left; reflexivity | exact (Hsecond eq_refl)].
    + split; [lia |]. intros e [<- | []]. cbn [bl_value].
      split; [reflexivity |]. split; [left; reflexivity | exact H1].
    + split; [lia |]. intros e [<- | [<- | []]]; cbn [bl_value].
      * split; [reflexivity |]. split; [left; reflexivity | exact H1].
      * split; [reflexivity |]. split; [right; left; reflexivity | exact (Hsecond eq_refl)].
Qed.

Lemma startup_keeps (datetime_now : string -> datetime) (st : State) (value : string) :
  is_blacklisted value st = true ->
  is_blacklisted value (exec (startup datetime_now) st) = true.
Proof.
  intros Hlisted. rewrite startup_exec. do 2 apply add_if_absent_keeps. exact Hlisted.
Qed.

Lemma startup_lists (datetime_now : string -> datetime) (st : State) (acc : string) :
  In acc startup_blacklisted_accounts ->
  is_blacklisted acc (exec (startup datetime_now) st) = true.
Proof.
  rewrite startup_exec. intros [<- | [<- | []]].
  - apply add_if_absent_keeps. apply add_if_absent_lists.
  - apply add_if_absent_lists.
Qed.

Lemma reachable_predefined (st : State) (acc : string) :
  reachable geodesic_km st ->
  In acc startup_blacklisted_accounts ->
  is_blacklisted acc st = true.
Proof.
  intros Hreach Hacc.
  induction Hreach as [datetime_now | st datetime_now _ IH | st txn request _ IH].
  - apply startup_lists. exact Hacc.
  - apply startup_lists. exact Hacc.
  - apply check_fraud_keeps. exact IH.
Qed.

(** X13. In every state of a deployment, a transaction with a readable
    timestamp whose recipient or sender is one of the predefined accounts is
    flagged as fraud. *)
Theorem predefined_accounts_always_flagged
    (st : State) (txn : Transaction) (request : Request) (now : datetime) :
  reachable geodesic_km st ->
  Strptime.strptime (timestamp txn) = Some now ->
  In (recipient_account_number txn) startup_blacklisted_accounts
  \/ In (sender_account_number txn) startup_blacklisted_accounts ->
  exists resp : Response,
    result (check_fraud geodesic_km txn request) st = Returned resp
    /\ fraud resp = true.
Proof.
  intros Hreach Hparse Hnames. eexists. split.
  - apply (listed_account_flags txn request st now Hparse).
    destruct Hnames as [H | H]; [left | right]; exact (reachable_predefined st _ Hreach H).
  - reflexivity.
Qed.

(** ** What the stores of a deployment hold *)

(** The history and the dictionary after a call whose timestamp parses. *)
Lemma check_fraud_stores
    (txn : Transaction) (request : Request) (st : State) (now : datetime) :
  Strptime.strptime (timestamp txn) = Some now ->
  let is_fraud := existsb fst (checks geodesic_km txn request now st) in
  let reasons := map snd (List.filter fst (checks geodesic_km txn request now st)) in
  collection (exec (check_fraud geodesic_km txn request) st)
  = (collection st ++ [stored_doc txn request now is_fraud reasons])%list
  /\ last_known_location (exec (check_fraud geodesic_km txn request) st)
     = (if is_fraud then last_known_location st
        else <[card_type txn := location txn]> (last_known_location st)).
Proof.
  intros Hparse. cbv zeta. rewrite (check_fraud_exec txn request st now Hparse).
  destruct (existsb fst (checks geodesic_km txn request now st)).
  - rewrite (proj1 (add_all_frame _ _ _ _)), (proj2 (add_all_frame _ _ _ _)).
    split; reflexivity.
  - split; reflexivity.
Qed.

Lemma entry_ok_more (history more : list StoredTransaction) (e : BlacklistEntry) :
  entry_ok history e -> entry_ok (history ++ more) e.
Proof.
  intros (Ht & Hr & [Hpre | (doc & Hin & Hrest)]); split; [| split | | split]; try assumption.
  - left. exact Hpre.
  - right. exists doc. split; [apply in_or_app; left; exact Hin | exact Hrest].
Qed.

Lemma baseline_ok_more (history more : list StoredTransaction) (card location : string) :
  baseline_ok history card location -> baseline_ok (history ++ more) card location.
Proof.
  intros (doc & Hin & Hrest). exists doc. split; [apply in_or_app; left; exact Hin | exact Hrest].
Qed.

Lemma reachable_stores (st : State) :
  reachable geodesic_km st ->
  Forall doc_ok (collection st)
  /\ Forall (entry_ok (collection st)) (blacklist_collection st)
  /\ (forall card location,
        last_known_location st !! card = Some location ->
        baseline_ok (collection st) card location).
Proof.
  assert (Hstart : forall datetime_now st0,
            Forall doc_ok (collection st0) ->
            Forall (entry_ok (collection st0)) (blacklist_collection st0) ->
            Forall doc_ok (collection (exec (startup datetime_now) st0))
            /\ Forall (entry_ok (collection (exec (startup datetime_now) st0)))
                 (blacklist_collection (exec (startup datetime_now) st0))).
  { intros datetime_now st0 Hdocs Hentries.
    rewrite (proj1 (startup_frame datetime_now st0)). split; [exact Hdocs |].
    rewrite startup_exec, !add_if_absent_blacklist.
    assert (Hpre : forall acc ts,
              In acc startup_blacklisted_accounts ->
              entry_ok (collection st0)
                (mk_BlacklistEntry "account" acc ["Predefined blacklist"] ts)).
    { intros acc ts Hacc. split; [reflexivity |]. split; [discriminate |].
      left. split; [exact Hacc | reflexivity]. }
    repeat (apply Forall_app; split); [exact Hentries | |].
    - destruct (is_blacklisted "9876543210" st0); constructor; [| constructor].
      apply Hpre. left. reflexivity.
    - destruct (is_blacklisted "1111222233" _); constructor; [| constructor].
      apply Hpre. right. left. reflexivity. }
  induction 1 as [datetime_now | st datetime_now _ IH | st txn request _ IH].
  - destruct (Hstart datetime_now (mk_State [] [] ∅)) as [Hd He];
      [constructor | constructor |].
    split; [exact Hd |]. split; [exact He |].
    intros card location. rewrite (proj2 (startup_frame datetime_now _)).
    cbn [last_known_location]. rewrite lookup_empty. discriminate.
  - destruct IH as (Hdocs & Hentries & _).
    destruct (Hstart datetime_now (restart st)) as [Hd He]; [exact Hdocs | exact Hentries |].
    split; [exact Hd |]. split; [exact He |].
    intros card location. rewrite (proj2 (startup_frame datetime_now _)).
    cbn [restart last_known_location]. rewrite lookup_empty. discriminate.
  - destruct IH as (Hdocs & Hentries & Hlkl).
    destruct (Strptime.strptime (timestamp txn)) as [now |] eqn:Hparse.
    2:{ unfold exec. rewrite (check_fraud_unparsed geodesic_km txn request st Hparse).
        cbn [snd]. split; [exact Hdocs |]. split; [exact Hentries | exact Hlkl]. }
    destruct (check_fraud_stores txn request st now Hparse) as [Hc Hl]. cbv zeta in Hc, Hl.
    destruct (check_fraud_blacklist txn request st) as (added & Hgrow & _ & Hadded).
    rewrite Hc, Hgrow, Hl.
    set (cs := checks geodesic_km txn request now st) in *.
    split; [| split].
    + apply Forall_app. split; [exact Hdocs |]. constructor; [| constructor].
      destruct (strptime_in_range _ _ Hparse) as (Hy & Hm & Hd & Hh & Hmi & Hs).
      unfold doc_ok, stored_doc. cbn [doc_is_fraud doc_fraud_reason doc_timestamp].
      split; [apply fired_nonempty |]. split; [exact (fired_length cs) |].
      repeat split; lia.
    + apply Forall_app. split.
      * eapply List.Forall_impl; [| exact Hentries]. intros e. apply entry_ok_more.
      * apply List.Forall_forall. intros e He.
        destruct (Hadded e He) as (_ & Hwho & now' & resp & Hparse' & Hres & Hfraud & Heq).
        assert (now' = now) by congruence. subst now'.
        destruct (returned_response txn request st resp Hres) as (now' & Hparse'' & ->).
        assert (now' = now) by congruence. subst now'. fold cs in Heq, Hfraud.
        cbn [fraud reasons] in Heq, Hfraud.
        rewrite Heq. split; [reflexivity |]. cbn [bl_reason bl_value bl_timestamp].
        split; [exact (proj1 (fired_nonempty cs) Hfraud) |].
        right. exists (stored_doc txn request now (existsb fst cs)
                         (map snd (List.filter fst cs))).
        split; [apply in_or_app; right; left; reflexivity |].
        unfold stored_doc.
        cbn [doc_is_fraud doc_fraud_reason doc_timestamp doc_recipient_account
             doc_sender_account].
        repeat split; assumption.
    + intros card location.
      destruct (existsb fst cs) eqn:Hfraud.
      * intros Hlook. apply baseline_ok_more. exact (Hlkl card location Hlook).
      * destruct (decide (card_type txn = card)) as [<- | Hother].
        -- rewrite lookup_insert_eq. intros [= <-].
           exists (stored_doc txn request now false (map snd (List.filter fst cs))).
           split; [apply in_or_app; right; left; reflexivity |].
           repeat split.
        -- rewrite lookup_insert_ne by exact Hother.
           intros Hlook. apply baseline_ok_more. exact (Hlkl card location Hlook).
Qed.

(** X14. In every state of a deployment, every stored transaction is
    flagged exactly when it carries a reason, carries at most six, and
    has a timestamp with year, month, day, hour, minute and second in range. *)
Theorem stored_transactions_consistent (st : State) (doc : StoredTransaction) :
  reachable geodesic_km st ->
  In doc (collection st) ->
  doc_ok doc.
Proof.
  intros Hreach Hin. destruct (reachable_stores st Hreach) as (Hdocs & _).
  exact (proj1 (List.Forall_forall _ _) Hdocs doc Hin).
Qed.

(** X15. In every state of a deployment, every blacklist entry is of type
    "account", has a reason, and is either a predefined account with the
    reason "Predefined blacklist" or is backed by a stored transaction that
    was flagged, names the account as recipient or sender, and has the
    entry's reasons and timestamp. *)
Theorem blacklist_entries_backed (st : State) (e : BlacklistEntry) :
  reachable geodesic_km st ->
  In e (blacklist_collection st) ->
  entry_ok (collection st) e.
Proof.
  intros Hreach Hin. destruct (reachable_stores st Hreach) as (_ & Hentries & _).
  exact (proj1 (List.Forall_forall _ _) Hentries e Hin).
Qed.

(** X16. In every state of a deployment, the last known location of a card
    is the location of a stored transaction of that card that was not
    flagged: a flagged transaction never becomes the baseline. *)
Theorem baseline_backed (st : State) (card location : string) :
  reachable geodesic_km st ->
  last_known_location st !! card = Some location ->
  baseline_ok (collection st) card location.
Proof.
  intros Hreach Hlook. destruct (reachable_stores st Hreach) as (_ & _ & Hlkl).
  exact (Hlkl card location Hlook).
Qed.

(** ** The history query *)

Lemma key_leb_total (k1 k2 : list Z) : key_leb k1 k2 = false -> key_leb k2 k1 = true.
Proof.
  revert k2. induction k1 as [| a k1 IH]; intros [| b k2]; cbn [key_leb]; try discriminate.
  intros Hno. apply orb_false_iff in Hno as [Hlt Hrest].
  apply Z.ltb_ge in Hlt. apply orb_true_iff.
  destruct (Z.eqb_spec a b) as [-> | Hne].
  - right. rewrite Z.eqb_refl. cbn [andb] in *. apply IH. exact Hrest.
  - left. apply Z.ltb_lt. lia.
Qed.

Lemma insert_by_timestamp_perm (doc : StoredTransaction) (sorted : list StoredTransaction) :
  Permutation (insert_by_timestamp doc sorted) (doc :: sorted).
Proof.
  induction sorted as [| x rest IH]; cbn [insert_by_timestamp]; [reflexivity |].
  destruct (datetime_leb (doc_timestamp x) (doc_timestamp doc)); [| reflexivity].
  rewrite IH. apply perm_swap.
Qed.

Lemma insert_by_timestamp_sorted (doc : StoredTransaction) (sorted : list StoredTransaction) :
  Sorted by_timestamp sorted -> Sorted by_timestamp (insert_by_timestamp doc sorted).
Proof.
  induction sorted as [| x rest IH]; intros Hs; cbn [insert_by_timestamp].
  - repeat constructor.
  - destruct (datetime_leb (doc_timestamp x) (doc_timestamp doc)) eqn:Hle.
    + apply Sorted_inv in Hs as [Hrest Hhd]. constructor; [exact (IH Hrest) |].
      destruct rest as [| y rest']; cbn [insert_by_timestamp].
      * constructor. exact Hle.
      * destruct (datetime_leb (doc_timestamp y) (doc_timestamp doc)); constructor.
        -- apply HdRel_inv in Hhd. exact Hhd.
        -- exact Hle.
    + constructor; [exact Hs |]. constructor. apply key_leb_total. exact Hle.
Qed.

Lemma sort_by_timestamp_snoc (docs : list StoredTransaction) (doc : StoredTransaction) :
  sort_by_timestamp (docs ++ [doc]) = insert_by_timestamp doc (sort_by_timestamp docs).
Proof. unfold sort_by_timestamp. rewrite fold_left_app. reflexivity. Qed.

Lemma sort_by_timestamp_spec (docs : list StoredTransaction) :
  Sorted by_timestamp (sort_by_timestamp docs)
  /\ Permutation (sort_by_timestamp docs) docs.
Proof.
  induction docs as [| doc docs [IHs IHp]] using rev_ind.
  - split; [constructor | reflexivity].
  - rewrite sort_by_timestamp_snoc. split.
    + apply insert_by_timestamp_sorted. exact IHs.
    + rewrite insert_by_timestamp_perm, IHp. apply Permutation_cons_append.
Qed.

(** X17. The history that the detectors get for a card holds exactly the
    stored transactions of that card type, each as often as it was stored,
    in ascending order of their timestamps (not of their arrival). *)
Theorem history_query_sorted (card : string) (st : State) :
  Sorted by_timestamp (card_history card st)
  /\ Permutation (card_history card st)
       (List.filter (fun doc => String.eqb (doc_card_type doc) card) (collection st))
  /\ (forall doc, In doc (card_history card st)
                  <-> In doc (collection st) /\ doc_card_type doc = card).
Proof.
  unfold card_history.
  destruct (sort_by_timestamp_spec
              (List.filter (fun doc => String.eqb (doc_card_type doc) card) (collection st)))
    as [Hs Hp].
  split; [exact Hs |]. split; [exact Hp |].
  intros doc. split.
  - intros Hin. apply (Permutation_in doc Hp) in Hin.
    apply filter_In in Hin as [Hin Heq]. split; [exact Hin | apply String.eqb_eq; exact Heq].
  - intros [Hin Heq]. apply (Permutation_in doc (Permutation_sym Hp)).
    apply filter_In. split; [exact Hin | apply String.eqb_eq; exact Heq].
Qed.


(** ** Calls in a row *)

Lemma no_drift_without_known_baseline
    (lkl : gmap string string) (card current_location : string) (max_km : float) :
  match lkl !! card with
  | Some last_location => location_lookup !! last_location = None
  | None => True
  end ->
  detect_geo_drift geodesic_km lkl card current_location max_km = false.
Proof.
  unfold detect_geo_drift. intros Hbase.
  destruct (location_lookup !! current_location); [| reflexivity].
  destruct (lkl !! card) as [last |]; [| reflexivity].
  rewrite Hbase. destruct (String.eqb last ""); reflexivity.
Qed.

(** X19. An accepted transaction from a place that is not in
    [location_lookup] becomes the card's baseline all the same, and with
    that baseline the next transaction of the card cannot be flagged for geo
    drift, wherever it comes from. *)
Theorem unknown_baseline_blinds_the_geo_check
    (txn1 txn2 : Transaction) (request1 request2 : Request) (st : State)
    (now1 now2 : datetime) (resp1 : Response) :
  Strptime.strptime (timestamp txn1) = Some now1 ->
  result (check_fraud geodesic_km txn1 request1) st = Returned resp1 ->
  fraud resp1 = false ->
  location_lookup !! location txn1 = None ->
  card_type txn2 = card_type txn1 ->
  Strptime.strptime (timestamp txn2) = Some now2 ->
  last_known_location (exec (check_fraud geodesic_km txn1 request1) st) !! card_type txn1
  = Some (location txn1)
  /\ exists resp2 : Response,
       result (check_fraud geodesic_km txn2 request2)
         (exec (check_fraud geodesic_km txn1 request1) st) = Returned resp2
       /\ ~ In "Geo Drift Detected" (reasons resp2).
Proof.
  intros Hparse1 Hres1 Hclean Hunknown Hcard Hparse2.
  destruct (returned_response txn1 request1 st resp1 Hres1) as (now1' & Hparse1' & ->).
  assert (now1' = now1) by congruence. subst now1'.
  change (existsb fst (checks geodesic_km txn1 request1 now1 st) = false) in Hclean.
  destruct (check_fraud_stores txn1 request1 st now1 Hparse1) as [_ Hl]. cbv zeta in Hl.
  rewrite Hclean in Hl.
  set (st1 := exec (check_fraud geodesic_km txn1 request1) st) in *.
  assert (Hbase : last_known_location st1 !! card_type txn1 = Some (location txn1)).
  { rewrite Hl. apply lookup_insert_eq. }
  split; [exact Hbase |].
  eexists. split; [exact (check_fraud_result txn2 request2 st1 now2 Hparse2) |].
  cbn [reasons].
  rewrite (check_reason_fired txn2 request2 st1 now2
             (detect_geo_drift geodesic_km (last_known_location st1) (card_type txn2)
                (location txn2) 500%float) "Geo Drift Detected")
    by (do 5 right; left; reflexivity).
  rewrite Hcard.
  rewrite (no_drift_without_known_baseline (last_known_location st1) (card_type txn1)
             (location txn2) 500%float); [discriminate |].
  rewrite Hbase. exact Hunknown.
Qed.

(** X20. A card with fewer than two stored transactions and no last known
    location can be flagged by the blacklists and the odd hour only: neither
    the anomaly reason nor the geo drift reason is returned. *)
Theorem new_card_is_quiet
    (txn : Transaction) (request : Request) (st : State) (now : datetime) :
  Strptime.strptime (timestamp txn) = Some now ->
  (length (List.filter (fun doc => String.eqb (doc_card_type doc) (card_type txn))
             (collection st)) < 2)%nat ->
  last_known_location st !! card_type txn = None ->
  exists resp : Response,
    result (check_fraud geodesic_km txn request) st = Returned resp
    /\ ~ In "Abnormal Amount (Behavioral)" (reasons resp)
    /\ ~ In "Geo Drift Detected" (reasons resp).
Proof.
  intros Hparse Hfew Hnone.
  eexists. split; [exact (check_fraud_result txn request st now Hparse) |].
  cbn [reasons]. split.
  - rewrite (check_reason_fired txn request st now
               (detect_behavioral_anomaly (card_history (card_type txn) st) (amount txn)
                  5 2.5%float) "Abnormal Amount (Behavioral)")
      by (do 4 right; left; reflexivity).
    rewrite short_history_never_flags; [discriminate |].
    unfold card_history.
    rewrite (Permutation_length (proj2 (sort_by_timestamp_spec _))). exact Hfew.
  - rewrite (check_reason_fired txn request st now
               (detect_geo_drift geodesic_km (last_known_location st) (card_type txn)
                  (location txn) 500%float) "Geo Drift Detected")
      by (do 5 right; left; reflexivity).
    rewrite (no_drift_without_known_baseline (last_known_location st) (card_type txn)
               (location txn) 500%float); [discriminate |].
    rewrite Hnone. exact I.
Qed.

(** X21. The transaction id and the currency play no part in the verdict:
    with another id and another currency the response is the same, and so
    are the blacklist store and the last known locations afterwards.
    Amounts are compared as numbers, whatever their currencies. *)
Theorem id_and_currency_ignored
    (txn : Transaction) (request : Request) (st : State) (other_id other_currency : string) :
  let txn' :=
    mk_Transaction other_id (timestamp txn) (amount txn) (location txn) (card_type txn)
      other_currency (recipient_account_number txn) (sender_account_number txn) in
  result (check_fraud geodesic_km txn' request) st
  = result (check_fraud geodesic_km txn request) st
  /\ blacklist_collection (exec (check_fraud geodesic_km txn' request) st)
     = blacklist_collection (exec (check_fraud geodesic_km txn request) st)
  /\ last_known_location (exec (check_fraud geodesic_km txn' request) st)
     = last_known_location (exec (check_fraud geodesic_km txn request) st)
  /\ map doc_amount (collection (exec (check_fraud geodesic_km txn' request) st))
     = map doc_amount (collection (exec (check_fraud geodesic_km txn request) st)).
Proof.
  intros txn'.
  destruct (Strptime.strptime (timestamp txn)) as [now |] eqn:Hparse.
  - assert (Hparse' : Strptime.strptime (timestamp txn') = Some now) by exact Hparse.
    unfold result.
    rewrite (check_fraud_exec txn' request st now Hparse'),
            (check_fraud_exec txn request st now Hparse),
            (check_fraud_run geodesic_km txn' request st now Hparse'),
            (check_fraud_run geodesic_km txn request st now Hparse).
    change (checks geodesic_km txn' request now st)
      with (checks geodesic_km txn request now st).
    cbn [fst recipient_account_number sender_account_number card_type location txn'].
    split; [reflexivity |].
    destruct (existsb fst (checks geodesic_km txn request now st)).
    + set (rs := map snd (List.filter fst (checks geodesic_km txn request now st))).
      rewrite !add_two_exec, !add_if_absent_blacklist.
      rewrite !(proj1 (add_if_absent_frame _ _ _ _)), !(proj2 (add_if_absent_frame _ _ _ _)).
      cbn [collection last_known_location blacklist_collection].
      split; [| split; [reflexivity |]].
      * unfold is_blacklisted.
        rewrite !add_if_absent_blacklist. cbn [blacklist_collection].
        unfold is_blacklisted. cbn [blacklist_collection]. reflexivity.
      * rewrite !map_app. reflexivity.
    + split; [reflexivity |]. split; [reflexivity |].
      unfold exec. cbn [snd collection mret M_ret]. rewrite !map_app. reflexivity.
  - assert (Hparse' : Strptime.strptime (timestamp txn') = None) by exact Hparse.
    unfold result, exec.
    rewrite (check_fraud_unparsed geodesic_km txn' request st Hparse'),
            (check_fraud_unparsed geodesic_km txn request st Hparse).
    repeat split.
Qed.

(** X22. Drift keeps being reported: a flagged transaction does not move
    the baseline, so as long as the calls are for one card and one place for
    which the geo check fires, the last known locations stay as they are
    and the check fires again at the next such call. *)
Theorem drift_is_sticky
    (card place : string) (calls : list (Transaction * Request)) (st : State) :
  detect_geo_drift geodesic_km (last_known_location st) card place 500%float = true ->
  (forall call, In call calls ->
     card_type (fst call) = card /\ location (fst call) = place) ->
  last_known_location (after_calls geodesic_km calls st) = last_known_location st
  /\ detect_geo_drift geodesic_km (last_known_location (after_calls geodesic_km calls st)) card place
       500%float = true.
Proof.
  intros Hdrift Hcalls.
  assert (Hsame : last_known_location (after_calls geodesic_km calls st) = last_known_location st).
  { revert st Hdrift. induction calls as [| [txn request] calls IH]; intros st Hdrift;
      [reflexivity |].
    cbn [after_calls fold_left fst snd].
    destruct (Hcalls (txn, request) (or_introl eq_refl)) as [Hcard Hplace].
    cbn [fst] in Hcard, Hplace.
    assert (Hstep : last_known_location (exec (check_fraud geodesic_km txn request) st)
                    = last_known_location st).
    { destruct (Strptime.strptime (timestamp txn)) as [now |] eqn:Hparse.
      - destruct (check_fraud_stores txn request st now Hparse) as [_ Hl]. cbv zeta in Hl.
        rewrite Hl. unfold checks. cbn [existsb fst]. rewrite Hcard, Hplace, Hdrift.
        rewrite !orb_true_r. reflexivity.
      - unfold exec. rewrite (check_fraud_unparsed geodesic_km txn request st Hparse).
        reflexivity. }
    rewrite <- Hstep.
    apply (IH (fun call Hin => Hcalls call (or_intror Hin))).
    rewrite Hstep. exact Hdrift. }
  split; [exact Hsame |]. rewrite Hsame. exact Hdrift.
Qed.

End FurtherEngineProperties.

(** ** The further properties at concrete requests *)

Lemma reasons_name_their_checks_witness :
  exists resp : Response,
    result (check_fraud Samples.planar_km Samples.night_txn Samples.forwarded) Samples.seeded
    = Returned resp
    /\ List.NoDup (reasons resp)
    /\ (length (reasons resp) <= 6)%nat
    /\ (In ("Blacklisted IP Address: " +:+ get_client_ip Samples.forwarded) (reasons resp)
        <-> get_client_ip Samples.forwarded ∈ BLACKLISTED_IPS)
    /\ (In ("Blacklisted Recipient Account: " +:+ "9876543210") (reasons resp)
        <-> is_blacklisted "9876543210" Samples.seeded = true)
    /\ (In ("Blacklisted Sender Account: " +:+ "5550002222") (reasons resp)
        <-> is_blacklisted "5550002222" Samples.seeded = true)
    /\ (In "Abnormal Amount (Behavioral)" (reasons resp)
        <-> detect_behavioral_anomaly (card_history "visa" Samples.seeded) 250%float
              5 2.5%float = true)
    /\ (In "Geo Drift Detected" (reasons resp)
        <-> detect_geo_drift Samples.planar_km (last_known_location Samples.seeded) "visa"
              "Delhi" 500%float = true).
Proof.
  apply (reasons_name_their_checks Samples.planar_km Samples.night_txn Samples.forwarded
           Samples.seeded (mk_datetime 2025 8 7 2 30 0)).
  vm_compute. reflexivity.
Defined.

Lemma verdict_and_blacklist_witness :
  exists resp : Response,
    result (check_fraud Samples.planar_km Samples.night_txn Samples.forwarded) Samples.seeded
    = Returned resp
    /\ (fraud resp = true ->
        is_blacklisted "9876543210"
          (exec (check_fraud Samples.planar_km Samples.night_txn Samples.forwarded)
             Samples.seeded) = true
        /\ is_blacklisted "5550002222"
             (exec (check_fraud Samples.planar_km Samples.night_txn Samples.forwarded)
                Samples.seeded) = true)
    /\ (fraud resp = false ->
        blacklist_collection
          (exec (check_fraud Samples.planar_km Samples.night_txn Samples.forwarded)
             Samples.seeded)
        = blacklist_collection Samples.seeded).
Proof.
  apply (verdict_and_blacklist Samples.planar_km Samples.night_txn Samples.forwarded
           Samples.seeded (mk_datetime 2025 8 7 2 30 0)).
  vm_compute. reflexivity.
Defined.

(** The sender of the flagged night transfer is flagged at three in the
    afternoon, two calls later. *)
Lemma fraud_spreads_through_accounts_witness :
  exists resp2 : Response,
    result (check_fraud Samples.planar_km (Samples.txn_at "2025-08-07 15:00:00")
              Samples.direct)
      (after_calls Samples.planar_km
         [(Samples.txn_at "2025-08-07 12:00:00", Samples.direct)]
         (exec (check_fraud Samples.planar_km Samples.night_txn Samples.forwarded)
            Samples.seeded))
    = Returned resp2
    /\ fraud resp2 = true.
Proof.
  apply (fraud_spreads_through_accounts Samples.planar_km Samples.night_txn
           Samples.forwarded Samples.seeded
           (mk_Response true
              [ "Blacklisted IP Address: 203.0.113.5";
                "Blacklisted Recipient Account: 9876543210";
                "Transaction During Odd Hours (12 AM - 4 AM)" ])
           [(Samples.txn_at "2025-08-07 12:00:00", Samples.direct)]
           (Samples.txn_at "2025-08-07 15:00:00") Samples.direct
           (mk_datetime 2025 8 7 15 0 0)).
  - vm_compute. reflexivity.
  - reflexivity.
  - vm_compute. reflexivity.
  - right. right. left. reflexivity.
Defined.

Lemma predefined_accounts_always_flagged_witness :
  exists resp : Response,
    result (check_fraud Samples.planar_km
              (mk_Transaction "tx-3" "2025-08-07 12:00:00" 10%float "Chennai" "visa" "INR"
                 "5550001111" "1111222233")
              Samples.direct) Samples.seeded = Returned resp
    /\ fraud resp = true.
Proof.
  apply (predefined_accounts_always_flagged Samples.planar_km Samples.seeded
           (mk_Transaction "tx-3" "2025-08-07 12:00:00" 10%float "Chennai" "visa" "INR"
              "5550001111" "1111222233")
           Samples.direct (mk_datetime 2025 8 7 12 0 0)).
  - apply reach_first_start.
  - vm_compute. reflexivity.
  - right. right. left. reflexivity.
Defined.

Lemma stored_transactions_consistent_witness :
  doc_ok
    (stored_doc Samples.night_txn Samples.forwarded (mk_datetime 2025 8 7 2 30 0) true
       [ "Blacklisted IP Address: 203.0.113.5";
         "Blacklisted Recipient Account: 9876543210";
         "Transaction During Odd Hours (12 AM - 4 AM)" ]).
Proof.
  apply (stored_transactions_consistent Samples.planar_km
           (exec (check_fraud Samples.planar_km Samples.night_txn Samples.forwarded)
              Samples.seeded)).
  - apply reach_request. apply reach_first_start.
  - vm_compute. left. reflexivity.
Defined.

Lemma blacklist_entries_backed_witness :
  entry_ok
    (collection
       (exec (check_fraud Samples.planar_km Samples.night_txn Samples.forwarded)
          Samples.seeded))
    (mk_BlacklistEntry "account" "5550002222"
       [ "Blacklisted IP Address: 203.0.113.5";
         "Blacklisted Recipient Account: 9876543210";
         "Transaction During Odd Hours (12 AM - 4 AM)" ]
       (mk_datetime 2025 8 7 2 30 0)).
Proof.
  apply (blacklist_entries_backed Samples.planar_km
           (exec (check_fraud Samples.planar_km Samples.night_txn Samples.forwarded)
              Samples.seeded)).
  - apply reach_request. apply reach_first_start.
  - vm_compute. right. right. left. reflexivity.
Defined.

Lemma baseline_backed_witness :
  baseline_ok
    (collection
       (exec (check_fraud Samples.planar_km (Samples.txn_at "2025-08-07 12:00:00")
                Samples.direct) Samples.seeded))
    "visa" "Chennai".
Proof.
  apply (baseline_backed Samples.planar_km
           (exec (check_fraud Samples.planar_km (Samples.txn_at "2025-08-07 12:00:00")
                    Samples.direct) Samples.seeded)).
  - apply reach_request. apply reach_first_start.
  - vm_compute. reflexivity.
Defined.


(** A transaction from "Atlantis" is accepted at noon; the next one of the
    card, from Delhi, is not checked against any place. *)
Lemma unknown_baseline_blinds_the_geo_check_witness :
  last_known_location
    (exec (check_fraud Samples.planar_km Samples.atlantis_txn Samples.direct)
       Samples.seeded) !! "visa" = Some "Atlantis"
  /\ exists resp2 : Response,
       result (check_fraud Samples.planar_km Samples.delhi_txn Samples.direct)
         (exec (check_fraud Samples.planar_km Samples.atlantis_txn Samples.direct)
            Samples.seeded) = Returned resp2
       /\ ~ In "Geo Drift Detected" (reasons resp2).
Proof.
  apply (unknown_baseline_blinds_the_geo_check Samples.planar_km
           Samples.atlantis_txn Samples.delhi_txn Samples.direct Samples.direct
           Samples.seeded (mk_datetime 2025 8 7 12 0 0) (mk_datetime 2025 8 7 13 0 0)
           (mk_Response false [])).
  - vm_compute. reflexivity.
  - vm_compute. reflexivity.
  - reflexivity.
  - vm_compute. reflexivity.
  - reflexivity.
  - vm_compute. reflexivity.
Defined.

Lemma new_card_is_quiet_witness :
  exists resp : Response,
    result (check_fraud Samples.planar_km Samples.night_txn Samples.forwarded) Samples.seeded
    = Returned resp
    /\ ~ In "Abnormal Amount (Behavioral)" (reasons resp)
    /\ ~ In "Geo Drift Detected" (reasons resp).
Proof.
  apply (new_card_is_quiet Samples.planar_km Samples.night_txn Samples.forwarded
           Samples.seeded (mk_datetime 2025 8 7 2 30 0)).
  - vm_compute. reflexivity.
  - vm_compute. lia.
  - vm_compute. reflexivity.
Defined.

(** With Delhi as the baseline, transactions from Chennai are reported
    one after the other, and Delhi stays the baseline. *)
Lemma drift_is_sticky_witness :
  let calls := [ (Samples.txn_at "2025-08-07 12:00:00", Samples.direct);
                 (Samples.txn_at "2025-08-08 12:00:00", Samples.direct) ] in
  last_known_location (after_calls Samples.planar_km calls Samples.based_in_delhi)
  = last_known_location Samples.based_in_delhi
  /\ detect_geo_drift Samples.planar_km
       (last_known_location (after_calls Samples.planar_km calls Samples.based_in_delhi))
       "visa" "Chennai" 500%float = true.
Proof.
  apply (drift_is_sticky Samples.planar_km "visa" "Chennai").
  - vm_compute. reflexivity.
  - intros call [<- | [<- | []]]; split; reflexivity.
Defined.
